(** * pytest-playwright (asyncio flavour): option table and context fixture

    A shallow embedding of [pytest_playwright/pytest_playwright.py]
    (option registration) and of the [context] fixture of
    [pytest_playwright/asyncio.py] (artifact capture at teardown).

    The browser-automation library and the test runner are opaque
    collaborators.  The library is modelled as a deterministic oracle that
    answers every call, possibly depending on the calls made so far; the
    fixture is a program in a small monad that records the calls it makes
    and propagates Python exceptions.  What the fixture decides is read
    off the log of calls: a trace is kept when [tracing.stop] is given a
    path, a screenshot is taken when [page.screenshot] is called, a video
    is saved when [video.save_as] is called.

    [slugify] and the path builder of [pytest_playwright/base.py] are
    parameters of the fixture.  The ["page"] listener registered by
    [context.on] is represented by its effect, the list of pages the test
    opened. *)

From Stdlib Require Import Ascii String DecimalString DecimalNat.
From stdpp Require Import base option list strings gmap.

Local Open Scope string_scope.
Local Open Scope list_scope.

(** ** Python values that occur in option tables and keyword dictionaries *)

#[warnings="-register-all"]
Inductive PyVal : Type :=
| VNone
| VBool (b : bool)
| VInt (z : Z)
| VStr (s : string)
| VList (l : list PyVal).

(** ** Exceptions

    [Error] is [playwright.async_api.Error]; [TimeoutError] is its
    subclass in the same library.  [TypeError] is the Python builtin; any
    other exception class is [OtherException cls msg]. *)

Inductive Exn : Type :=
| Error (msg : string)
| TimeoutError (msg : string)
| TypeError (msg : string)
| OtherException (cls msg : string).

(** [isinstance(e, Error)], the test made by [except Error]. *)
Definition isinstance_Error (e : Exn) : bool :=
  match e with
  | Error _ | TimeoutError _ => true
  | TypeError _ | OtherException _ _ => false
  end.

(** ** Handles owned by the automation library *)

Record Video : Type := { video_id : nat }.

(** A page; [page_video] is the [page.video] property ([None] when the
    page records no video). *)
Record Page : Type := { page_id : nat; page_video : option Video }.

(** What evaluating the expression [video.path()] hands back.  With a
    synchronous method it is a path; with a coroutine function, calling it
    without [await] yields a coroutine object. *)
Inductive PyObj : Type :=
| PathLike (p : string)
| Coroutine.

(** ** Calls made to the automation library *)

Inductive Call : Type :=
| new_context (kwargs : gmap string PyVal)
| tracing_start (title : string) (screenshots snapshots sources : bool)
| tracing_stop (path : option string)
| page_screenshot (page : Page) (timeout : Z) (path : string) (full_page : bool)
| context_close
| video_path (video : Video)
| video_save_as (video : Video) (path : string).

(** The library as an oracle: given the calls made so far and the next
    call, [respond] says whether the call raises; [video_path_value] is the
    object [video.path()] evaluates to when it does not raise. *)
Record Library : Type := {
  respond : list Call → Call → option Exn;
  video_path_value : list Call → Video → PyObj
}.

(** ** The monad of fixture code

    A computation reads the library and the history of calls, and returns a
    result or a raised exception together with the calls it made itself. *)

Inductive Result (A : Type) : Type :=
| Ok (a : A)
| Raise (e : Exn).
Arguments Ok {A} a.
Arguments Raise {A} e.

Definition M (A : Type) : Type := Library → list Call → Result A * list Call.

Definition ret {A} (a : A) : M A := λ _ _, (Ok a, []).

Definition bind {A B} (m : M A) (f : A → M B) : M B :=
  λ lib h,
    match m lib h with
    | (Ok a, l1) =>
        match f a lib (h ++ l1) with
        | (r, l2) => (r, l1 ++ l2)
        end
    | (Raise e, l1) => (Raise e, l1)
    end.

Definition raise {A} (e : Exn) : M A := λ _ _, (Raise e, []).

#[export] Instance M_ret : MRet M := @ret.
#[export] Instance M_bind : MBind M := λ A B f m, bind m f.

(** [await lib_call(...)] for a call whose value is not used. *)
Definition call (c : Call) : M unit :=
  λ lib h,
    match respond lib h c with
    | None => (Ok (), [c])
    | Some e => (Raise e, [c])
    end.

(** The expression [video.path()]. *)
Definition call_video_path (v : Video) : M PyObj :=
  λ lib h,
    match respond lib h (video_path v) with
    | None => (Ok (video_path_value lib h v), [video_path v])
    | Some e => (Raise e, [video_path v])
    end.

(** [try: m  except Error: pass] *)
Definition try_except_Error (m : M unit) : M unit :=
  λ lib h,
    match m lib h with
    | (Raise e, l) => if isinstance_Error e then (Ok (), l) else (Raise e, l)
    | r => r
    end.

(** [for x in xs: body(x)] *)
Fixpoint for_each {A} (xs : list A) (body : A → M unit) : M unit :=
  match xs with
  | [] => mret ()
  | x :: xs' => body x ;; for_each xs' body
  end.

(** [enumerate(xs)], counting from [i]. *)
Fixpoint enumerate_from {A} (i : nat) (xs : list A) : list (nat * A) :=
  match xs with
  | [] => []
  | x :: xs' => (i, x) :: enumerate_from (S i) xs'
  end.

Definition enumerate {A} (xs : list A) : list (nat * A) := enumerate_from 0 xs.

(** ** Python helpers used by the fixture *)

(** [str(n)] for a non-negative integer. *)
Definition str (n : nat) : string := NilEmpty.string_of_uint (Nat.to_uint n).

Fixpoint has_sep (p : string) : bool :=
  match p with
  | EmptyString => false
  | String c rest => if Ascii.eqb c "/"%char then true else has_sep rest
  end.

(** [posixpath.basename] on a string: what follows the last ["/"]. *)
Fixpoint basename (p : string) : string :=
  match p with
  | EmptyString => EmptyString
  | String c rest =>
      if has_sep rest then basename rest
      else if Ascii.eqb c "/"%char then rest else p
  end.

(** [os.path.basename(o)]: [os.fspath] rejects an object that is not
    path-like with [TypeError]. *)
Definition os_path_basename (o : PyObj) : M string :=
  match o with
  | PathLike p => mret (basename p)
  | Coroutine =>
      raise (TypeError "expected str, bytes or os.PathLike object, not coroutine")
  end.

(** ** Test-runner data *)

(** The parsed command line, one field per option the fixture reads with
    [pytestconfig.getoption]. *)
Record Config : Type := {
  opt_output : string;
  opt_tracing : string;
  opt_video : string;
  opt_screenshot : string;
  opt_full_page_screenshot : bool
}.

(** The report of a test's call phase; [failed] is the attribute read. *)
Record TestReport : Type := { failed : bool }.

Record Mark : Type := { mark_name : string; mark_kwargs : gmap string PyVal }.

(** A node of the collection tree: a test function, or the class, module
    or package it lies in ([parent], absent at the root).  [rep_call] is an
    optional attribute ([hasattr]). *)
#[warnings="-register-all"]
Inductive Node : Type := Build_Node {
  nodeid : string;
  own_markers : list Mark;
  rep_call : option TestReport;
  parent : option Node
}.

Record FixtureRequest : Type := { node : Node }.

(** The markers that apply to a node, closest first: its own, then those
    of its parent, and so on up to the root (the order of
    [reversed(node.listchain())]). *)
Fixpoint all_markers (n : Node) : list Mark :=
  match n with
  | Build_Node _ own _ up =>
      own ++ match up with
             | Some p => all_markers p
             | None => []
             end
  end.

(** [node.iter_markers(name)] *)
Definition iter_markers (name : string) (n : Node) : list Mark :=
  filter (λ m, mark_name m = name) (all_markers n).

(** [x in xs] on strings. *)
Definition str_in (x : string) (xs : list string) : bool :=
  existsb (String.eqb x) xs.

(** What the test phase leaves behind between the two halves of the
    fixture: the pages collected by the ["page"] listener and the
    [rep_call] attribute of the node. *)
Record TestPhase : Type := {
  opened_pages : list Page;
  call_report : option TestReport
}.

Definition after_test (request : FixtureRequest) (t : TestPhase) : FixtureRequest :=
  {| node := {| nodeid := nodeid (node request);
                own_markers := own_markers (node request);
                rep_call := call_report t;
                parent := parent (node request) |} |}.

(** ** The context fixture *)

Section Context.

(** [slugify] of the python-slugify package. *)
Variable slugify : string → string.

(** [self._build_artifact_test_folder(pytestconfig, request, name)],
    inherited from [pytest_playwright.base.PytestPlaywright]. *)
Variable _build_artifact_test_folder : Config → FixtureRequest → string → string.

(** Locals of the generator that are live across [yield]. *)
Record Frame : Type := {
  tracing_option : string;
  capture_trace : bool
}.

(** The fixture up to [yield context]. *)
Definition context_setup (browser_context_args : gmap string PyVal)
    (pytestconfig : Config) (request : FixtureRequest) : M Frame :=
  let context_args_marker := head (iter_markers "browser_context_args" (node request)) in
  let additional_context_args :=
    match context_args_marker with
    | Some m => mark_kwargs m
    | None => ∅
    end in
  let browser_context_args := additional_context_args ∪ browser_context_args in
  call (new_context browser_context_args) ;;
  let tracing_option := opt_tracing pytestconfig in
  let capture_trace := str_in tracing_option ["on"; "retain-on-failure"] in
  (if capture_trace
   then call (tracing_start (slugify (nodeid (node request))) true true true)
   else mret ()) ;;
  mret {| tracing_option := tracing_option; capture_trace := capture_trace |}.

(** The fixture after [yield context]. *)
Definition context_teardown (fr : Frame) (pytestconfig : Config)
    (request : FixtureRequest) (pages : list Page) : M unit :=
  let failed :=
    match rep_call (node request) with
    | Some rep => failed rep
    | None => true
    end in
  (if capture_trace fr then
     let retain_trace :=
       String.eqb (tracing_option fr) "on"
       || (failed && String.eqb (tracing_option fr) "retain-on-failure") in
     if retain_trace then
       let trace_path := _build_artifact_test_folder pytestconfig request "trace.zip" in
       call (tracing_stop (Some trace_path))
     else call (tracing_stop None)
   else mret ()) ;;
  let screenshot_option := opt_screenshot pytestconfig in
  let capture_screenshot :=
    String.eqb screenshot_option "on"
    || (failed && String.eqb screenshot_option "only-on-failure") in
  (if capture_screenshot then
     for_each (enumerate pages) (λ '(index, page),
       let human_readable_status := if failed then "failed" else "finished" in
       let screenshot_path :=
         _build_artifact_test_folder pytestconfig request
           ("test-" +:+ human_readable_status +:+ "-" +:+ str (index + 1) +:+ ".png") in
       try_except_Error
         (call (page_screenshot page 5000 screenshot_path
                  (opt_full_page_screenshot pytestconfig))))
   else mret ()) ;;
  call context_close ;;
  let video_option := opt_video pytestconfig in
  let preserve_video :=
    String.eqb video_option "on"
    || (failed && String.eqb video_option "retain-on-failure") in
  if preserve_video then
    for_each pages (λ page,
      match page_video page with
      | None => mret ()
      | Some video =>
          try_except_Error
            (video_path ← call_video_path video;
             file_name ← os_path_basename video_path;
             call (video_save_as video
                     (_build_artifact_test_folder pytestconfig request file_name)))
      end)
  else mret ().

(** The whole fixture as the runner drives it: set-up, the test phase,
    then teardown.  When set-up raises the generator never reaches
    [yield] and the teardown half does not run. *)
Definition context (browser_context_args : gmap string PyVal)
    (pytestconfig : Config) (request : FixtureRequest) (t : TestPhase) : M unit :=
  fr ← context_setup browser_context_args pytestconfig request;
  context_teardown fr pytestconfig (after_test request t) (opened_pages t).

End Context.

(** Videos of the pages that have one, in page order. *)
Definition videos_of (pages : list Page) : list Video := omap page_video pages.

(** ** The four consecutive parts of the teardown

    [context_teardown] is one function in the source; its parts are named
    here so that each can be reasoned about on its own
    ([context_teardown_stages] shows that the fixture is their sequence). *)

Section Stages.

Variable _build_artifact_test_folder : Config → FixtureRequest → string → string.

Definition failed_flag (request : FixtureRequest) : bool :=
  match rep_call (node request) with
  | Some rep => failed rep
  | None => true
  end.

Definition stop_tracing (fr : Frame) (pytestconfig : Config)
    (request : FixtureRequest) : M unit :=
  if capture_trace fr then
    if String.eqb (tracing_option fr) "on"
       || (failed_flag request && String.eqb (tracing_option fr) "retain-on-failure")
    then call (tracing_stop
                 (Some (_build_artifact_test_folder pytestconfig request "trace.zip")))
    else call (tracing_stop None)
  else mret ().

Definition screenshot_path (pytestconfig : Config) (request : FixtureRequest)
    (index : nat) : string :=
  _build_artifact_test_folder pytestconfig request
    ("test-" +:+ (if failed_flag request then "failed" else "finished")
     +:+ "-" +:+ str (index + 1) +:+ ".png").

Definition screenshot_call (pytestconfig : Config) (request : FixtureRequest)
    (ip : nat * Page) : Call :=
  page_screenshot ip.2 5000 (screenshot_path pytestconfig request ip.1)
    (opt_full_page_screenshot pytestconfig).

Definition screenshot_loop (pytestconfig : Config) (request : FixtureRequest)
    (indexed : list (nat * Page)) : M unit :=
  for_each indexed (λ '(index, page),
    try_except_Error
      (call (page_screenshot page 5000 (screenshot_path pytestconfig request index)
               (opt_full_page_screenshot pytestconfig)))).

Definition take_screenshots (pytestconfig : Config) (request : FixtureRequest)
    (pages : list Page) : M unit :=
  if String.eqb (opt_screenshot pytestconfig) "on"
     || (failed_flag request && String.eqb (opt_screenshot pytestconfig) "only-on-failure")
  then screenshot_loop pytestconfig request (enumerate pages)
  else mret ().

Definition save_video (pytestconfig : Config) (request : FixtureRequest)
    (video : Video) : M unit :=
  try_except_Error
    (video_path ← call_video_path video;
     file_name ← os_path_basename video_path;
     call (video_save_as video
             (_build_artifact_test_folder pytestconfig request file_name))).

Definition video_loop (pytestconfig : Config) (request : FixtureRequest)
    (pages : list Page) : M unit :=
  for_each pages (λ page,
    match page_video page with
    | None => mret ()
    | Some video => save_video pytestconfig request video
    end).

Definition save_videos (pytestconfig : Config) (request : FixtureRequest)
    (pages : list Page) : M unit :=
  if String.eqb (opt_video pytestconfig) "on"
     || (failed_flag request && String.eqb (opt_video pytestconfig) "retain-on-failure")
  then video_loop pytestconfig request pages
  else mret ().

(** The screenshot calls of a teardown in which none is cut short. *)
Definition screenshot_calls (pytestconfig : Config) (request : FixtureRequest)
    (pages : list Page) : list Call :=
  if String.eqb (opt_screenshot pytestconfig) "on"
     || (failed_flag request && String.eqb (opt_screenshot pytestconfig) "only-on-failure")
  then map (screenshot_call pytestconfig request) (enumerate pages)
  else [].

(** The calls of the video stage. *)
Definition video_stage_call (pytestconfig : Config) (request : FixtureRequest)
    (pages : list Page) (c : Call) : Prop :=
  ∃ v, v ∈ videos_of pages ∧
    (c = video_path v ∨
     ∃ name, c = video_save_as v (_build_artifact_test_folder pytestconfig request name)).

(** The calls that can follow the trace stop. *)
Definition after_trace (pytestconfig : Config) (request : FixtureRequest) (pages : list Page)
    (c : Call) : Prop :=
  (∃ ip, ip ∈ enumerate pages ∧ c = screenshot_call pytestconfig request ip) ∨
  c = context_close ∨
  (∃ v, v ∈ videos_of pages ∧
     (c = video_path v ∨ ∃ name, c = video_save_as v (_build_artifact_test_folder pytestconfig request name))).

End Stages.

(** Modelled from the spec: [_build_artifact_test_folder] is defined in
    [pytest_playwright/base.py], which is not among the sources.  The spec
    says that "artifacts are written under a per-test directory derived
    from the test identifier", with a "slug-safe output path per artifact"
    below the output directory option: the output directory, then the
    slug of the node id, then the artifact's name. *)
Definition test_folder (slugify : string → string)
    (pytestconfig : Config) (request : FixtureRequest) : string :=
  opt_output pytestconfig +:+ "/" +:+ slugify (nodeid (node request)) +:+ "/".

Definition base_build_artifact_test_folder (slugify : string → string)
    (pytestconfig : Config) (request : FixtureRequest)
    (folder_or_file_name : string) : string :=
  test_folder slugify pytestconfig request +:+ folder_or_file_name.

(** ** Observations on a log of calls *)

(** Paths handed to [tracing.stop(path=...)]. *)
Definition trace_files (log : list Call) : list string :=
  omap (λ c, match c with tracing_stop (Some p) => Some p | _ => None end) log.

(** Arguments of the [tracing.stop] calls. *)
Definition tracing_stops (log : list Call) : list (option string) :=
  omap (λ c, match c with tracing_stop p => Some p | _ => None end) log.

(** Titles of the [tracing.start] calls. *)
Definition tracing_starts (log : list Call) : list string :=
  omap (λ c, match c with tracing_start t _ _ _ => Some t | _ => None end) log.

(** Pages on which [page.screenshot] was called. *)
Definition screenshot_pages (log : list Call) : list Page :=
  omap (λ c, match c with page_screenshot pg _ _ _ => Some pg | _ => None end) log.

(** The [full_page] arguments of the [page.screenshot] calls. *)
Definition screenshot_full_page (log : list Call) : list bool :=
  omap (λ c, match c with page_screenshot _ _ _ f => Some f | _ => None end) log.

(** Videos on which [video.save_as] was called. *)
Definition videos_saved (log : list Call) : list Video :=
  omap (λ c, match c with video_save_as v _ => Some v | _ => None end) log.

(** Every path at which the library is asked to write an artifact. *)
Definition artifact_paths (log : list Call) : list string :=
  omap (λ c, match c with
             | tracing_stop (Some p) => Some p
             | page_screenshot _ _ p _ => Some p
             | video_save_as _ p => Some p
             | _ => None
             end) log.

Definition is_trace_or_screenshot (c : Call) : Prop :=
  match c with
  | tracing_stop _ | page_screenshot _ _ _ _ => True
  | _ => False
  end.

Definition is_video_call (c : Call) : Prop :=
  match c with
  | video_path _ | video_save_as _ _ => True
  | _ => False
  end.

(** ** Assumptions on the library, as predicates on the oracle *)

(** [tracing.stop] returns normally. *)
Definition stop_returns (lib : Library) : Prop :=
  ∀ h p, respond lib h (tracing_stop p) = None.

(** [context.close] returns normally. *)
Definition close_returns (lib : Library) : Prop :=
  ∀ h, respond lib h context_close = None.

(** [browser.new_context] and [tracing.start] return normally. *)
Definition setup_returns (lib : Library) : Prop :=
  (∀ h kw, respond lib h (new_context kw) = None) ∧
  (∀ h t a b c, respond lib h (tracing_start t a b c) = None).

(** What [page.screenshot] raises is an instance of the library's [Error]. *)
Definition screenshot_raises_Error (lib : Library) : Prop :=
  ∀ h pg t p f e,
    respond lib h (page_screenshot pg t p f) = Some e → isinstance_Error e = true.

(** What [video.path] and [video.save_as] raise is an instance of [Error]. *)
Definition video_raises_Error (lib : Library) : Prop :=
  (∀ h v e, respond lib h (video_path v) = Some e → isinstance_Error e = true) ∧
  (∀ h v p e, respond lib h (video_save_as v p) = Some e → isinstance_Error e = true).

(** [video.path()] evaluates to a path: the method is synchronous. *)
Definition path_is_sync (lib : Library) : Prop :=
  ∀ h v, ∃ p, video_path_value lib h v = PathLike p.

(** The video calls return normally. *)
Definition video_returns (lib : Library) : Prop :=
  (∀ h v, respond lib h (video_path v) = None) ∧
  (∀ h v p, respond lib h (video_save_as v p) = None).

(** ** Sample collaborators, used to run the fixture on concrete inputs *)

(** A stand-in for [slugify]: ASCII letters and digits are kept, every
    other character becomes a dash. *)
Definition slug_char (c : ascii) : ascii :=
  let n := nat_of_ascii c in
  if (Nat.leb 48 n && Nat.leb n 57) || (Nat.leb 65 n && Nat.leb n 90)
     || (Nat.leb 97 n && Nat.leb n 122)
  then c else "-"%char.

Fixpoint sample_slugify (s : string) : string :=
  match s with
  | EmptyString => EmptyString
  | String c rest => String (slug_char c) (sample_slugify rest)
  end.

(** A library on which every call returns and [video.path()] is
    synchronous. *)
Definition sync_library : Library :=
  {| respond := λ _ _, None;
     video_path_value := λ _ v, PathLike ("/tmp/videos/" +:+ str (video_id v) +:+ ".webm") |}.

(** The same, but screenshots time out and empty videos cannot be saved. *)
Definition failing_library : Library :=
  {| respond := λ _ c,
       match c with
       | page_screenshot _ _ _ _ => Some (TimeoutError "Timeout 5000ms exceeded.")
       | video_save_as _ _ => Some (Error "Page did not produce any video frames")
       | _ => None
       end;
     video_path_value := λ _ v, PathLike ("/tmp/videos/" +:+ str (video_id v) +:+ ".webm") |}.

(** [playwright.async_api]: [Video.path] is declared [async def], so the
    expression [video.path()] without [await] evaluates to a coroutine
    object and runs nothing. *)
Definition async_api_library : Library :=
  {| respond := λ _ _, None;
     video_path_value := λ _ _, Coroutine |}.

Definition sample_config (tracing video screenshot : string) (full_page : bool) : Config :=
  {| opt_output := "test-results";
     opt_tracing := tracing;
     opt_video := video;
     opt_screenshot := screenshot;
     opt_full_page_screenshot := full_page |}.

Definition sample_request (report : option TestReport) : FixtureRequest :=
  {| node := {| nodeid := "tests/test_login.py::test_ok";
                own_markers := [];
                rep_call := report;
                parent := None |} |}.

Definition sample_pages : list Page :=
  [ {| page_id := 1; page_video := Some {| video_id := 1 |} |};
    {| page_id := 2; page_video := None |} ].

(** ** Option registration ([pytest_playwright.py]) *)

(** The keyword arguments of one [group.addoption(name, ...)] call; a
    keyword that is not passed is [None]. *)
Record OptionSpec : Type := {
  option_name : string;
  action : option string;
  default : PyVal;
  type : option string;
  choices : option (list string);
  help : string
}.

Record OptionGroup : Type := {
  description : string;
  options : list OptionSpec
}.

(** The runner's parser: its option groups by name. *)
Abbreviation Parser := (gmap string OptionGroup).

(** [parser.getgroup(name, description)]: the group of that name, created
    empty when there is none. *)
Definition getgroup (name description : string) (parser : Parser) : Parser :=
  match parser !! name with
  | Some _ => parser
  | None => <[name := {| description := description; options := [] |}]> parser
  end.

Definition add_to_group (o : OptionSpec) (g : OptionGroup) : OptionGroup :=
  {| description := description g; options := options g ++ [o] |}.

(** [group.addoption(...)] on the group called [group]. *)
Definition addoption (group : string) (o : OptionSpec) (parser : Parser) : Parser :=
  alter (add_to_group o) group parser.

Definition pytest_addoption (parser : Parser) : Parser :=
  let group := "playwright" in
  let parser := getgroup group "Playwright" parser in
  let parser := addoption group
    {| option_name := "--browser";
       action := Some "append";
       default := VList [];
       type := None;
       choices := Some ["chromium"; "firefox"; "webkit"];
       help := "Browser engine which should be used" |} parser in
  let parser := addoption group
    {| option_name := "--headed";
       action := Some "store_true";
       default := VBool false;
       type := None;
       choices := None;
       help := "Run tests in headed mode." |} parser in
  let parser := addoption group
    {| option_name := "--browser-channel";
       action := Some "store";
       default := VNone;
       type := None;
       choices := None;
       help := "Browser channel to be used." |} parser in
  let parser := addoption group
    {| option_name := "--slowmo";
       action := None;
       default := VInt 0;
       type := Some "int";
       choices := None;
       help := "Run tests with slow mo" |} parser in
  let parser := addoption group
    {| option_name := "--device";
       action := Some "store";
       default := VNone;
       type := None;
       choices := None;
       help := "Device to be emulated." |} parser in
  let parser := addoption group
    {| option_name := "--output";
       action := None;
       default := VStr "test-results";
       type := None;
       choices := None;
       help := "Directory for artifacts produced by tests, defaults to test-results." |}
    parser in
  let parser := addoption group
    {| option_name := "--tracing";
       action := None;
       default := VStr "off";
       type := None;
       choices := Some ["on"; "off"; "retain-on-failure"];
       help := "Whether to record a trace for each test." |} parser in
  let parser := addoption group
    {| option_name := "--video";
       action := None;
       default := VStr "off";
       type := None;
       choices := Some ["on"; "off"; "retain-on-failure"];
       help := "Whether to record video for each test." |} parser in
  let parser := addoption group
    {| option_name := "--screenshot";
       action := None;
       default := VStr "off";
       type := None;
       choices := Some ["on"; "off"; "only-on-failure"];
       help := "Whether to automatically capture a screenshot after each test." |}
    parser in
  addoption group
    {| option_name := "--full-page-screenshot";
       action := Some "store_true";
       default := VBool false;
       type := None;
       choices := None;
       help := "Whether to take a full page screenshot" |} parser.

(** The options of the ["playwright"] group. *)
Definition playwright_options (parser : Parser) : list OptionSpec :=
  from_option options [] (parser !! "playwright").

(** The first option of that name in a list of options. *)
Definition find_option (name : string) (opts : list OptionSpec) : option OptionSpec :=
  List.find (λ o, String.eqb (option_name o) name) opts.

(** ** Further observations on a log *)

(** Paths handed to [page.screenshot]. *)
Definition screenshot_paths (log : list Call) : list string :=
  omap (λ c, match c with page_screenshot _ _ p _ => Some p | _ => None end) log.

(** Videos on which [video.path()] was evaluated. *)
Definition video_paths_asked (log : list Call) : list Video :=
  omap (λ c, match c with video_path v => Some v | _ => None end) log.

(** Keyword dictionaries handed to [browser.new_context]. *)
Definition context_kwargs (log : list Call) : list (gmap string PyVal) :=
  omap (λ c, match c with new_context kw => Some kw | _ => None end) log.

(** How many times [context.close()] was called. *)
Definition closes (log : list Call) : nat :=
  length (omap (λ c, match c with context_close => Some () | _ => None end) log).

(** The dictionary object [browser_context_args] after the in-place
    [browser_context_args.update(additional_context_args)] of the set-up. *)
Definition updated_context_args (browser_context_args : gmap string PyVal)
    (request : FixtureRequest) : gmap string PyVal :=
  match head (iter_markers "browser_context_args" (node request)) with
  | Some m => mark_kwargs m
  | None => ∅
  end ∪ browser_context_args.

(** The calls of the video stage on a given library: a save is made under
    the file name that [video.path()] reported. *)
Definition video_call_on (build : Config → FixtureRequest → string → string)
    (lib : Library) (cfg : Config) (req : FixtureRequest) (c : Call) : Prop :=
  match c with
  | video_path _ => True
  | video_save_as v path =>
      ∃ h p, video_path_value lib h v = PathLike p ∧ path = build cfg req (basename p)
  | _ => False
  end.

(** In the log [l] of code that started at history [h0], every
    [video.save_as] comes right after the evaluation of [video.path()] on
    the same video, and its path is the builder applied to the basename of
    what that evaluation returned. *)
Definition save_follows_path (build : Config → FixtureRequest → string → string)
    (lib : Library) (cfg : Config) (req : FixtureRequest)
    (h0 l : list Call) : Prop :=
  ∀ pre v path post,
    l = pre ++ video_save_as v path :: post →
    ∃ pre' p,
      pre = pre' ++ [video_path v] ∧
      video_path_value lib (h0 ++ pre') v = PathLike p ∧
      path = build cfg req (basename p).

(** ** Session-scoped fixtures ([launch_browser], [browser])

    Their calls go to the browser type, the browser and the temporary
    artifacts folder; they are logged like the calls of the
    context fixture, in a monad of the same shape. *)

Inductive SessionCall : Type :=
| browser_type_launch (launch_options : gmap string PyVal)
| browser_close
| artifacts_folder_cleanup.

Definition SM (A : Type) : Type :=
  (list SessionCall → SessionCall → option Exn) → list SessionCall →
  Result A * list SessionCall.

Definition sret {A} (a : A) : SM A := λ _ _, (Ok a, []).

Definition sbind {A B} (m : SM A) (f : A → SM B) : SM B :=
  λ lib h,
    match m lib h with
    | (Ok a, l1) =>
        match f a lib (h ++ l1) with
        | (r, l2) => (r, l1 ++ l2)
        end
    | (Raise e, l1) => (Raise e, l1)
    end.

#[export] Instance SM_ret : MRet SM := @sret.
#[export] Instance SM_bind : MBind SM := λ A B f m, sbind m f.

Definition scall (c : SessionCall) : SM unit :=
  λ lib h,
    match lib h c with
    | None => (Ok (), [c])
    | Some e => (Raise e, [c])
    end.

(** [yield]: the generator is suspended while the runner does the work
    that depends on the fixture, making the calls [during]; the runner
    resumes the generator whatever happened meanwhile. *)
Definition yield_ (during : list SessionCall) : SM unit := λ _ _, (Ok (), during).

(** The closure [launch] returned by the [launch_browser] fixture:
    [{**browser_type_launch_args, **kwargs}], later keys winning. *)
Definition launch_browser (browser_type_launch_args kwargs : gmap string PyVal) : SM unit :=
  let launch_options := kwargs ∪ browser_type_launch_args in
  scall (browser_type_launch launch_options).

(** The [browser] fixture; it calls [launch_browser()] without keyword
    arguments. *)
Definition browser (browser_type_launch_args : gmap string PyVal)
    (during : list SessionCall) : SM unit :=
  launch_browser browser_type_launch_args ∅ ;;
  yield_ during ;;
  scall browser_close ;;
  scall artifacts_folder_cleanup.

(** Launch options of the [browser_type.launch] calls of a log. *)
Definition launches (log : list SessionCall) : list (gmap string PyVal) :=
  omap (λ c, match c with browser_type_launch o => Some o | _ => None end) log.

(** A library that answers each kind of call the same way every time;
    [video.path()] is synchronous. *)
Definition raising_library (raises : Call → option Exn) : Library :=
  {| respond := λ _ c, raises c;
     video_path_value := λ _ v, PathLike ("/tmp/videos/" +:+ str (video_id v) +:+ ".webm") |}.

(** What [pytestconfig.getoption] returns for the options the fixture reads
    when the command line gives none of them: the registered defaults. *)
Definition default_of (name : string) (opts : list OptionSpec) : option PyVal :=
  default <$> find_option name opts.

Definition default_config (opts : list OptionSpec) : option Config :=
  match default_of "--output" opts, default_of "--tracing" opts,
        default_of "--video" opts, default_of "--screenshot" opts,
        default_of "--full-page-screenshot" opts with
  | Some (VStr output), Some (VStr tracing), Some (VStr video),
    Some (VStr screenshot), Some (VBool full_page) =>
      Some {| opt_output := output;
              opt_tracing := tracing;
              opt_video := video;
              opt_screenshot := screenshot;
              opt_full_page_screenshot := full_page |}
  | _, _, _, _, _ => None
  end.

(** ** Properties of computations

    [emits P m]: every call [m] makes satisfies [P], whatever the library
    does. *)
Definition emits {A} (P : Call → Prop) (m : M A) : Prop :=
  ∀ lib h, Forall P (m lib h).2.


(** * Properties *)

(** ** Running monadic code *)

Lemma run_bind {A B} (m : M A) (f : A → M B) lib h :
  (m ≫= f) lib h =
  match m lib h with
  | (Ok a, l1) => match f a lib (h ++ l1) with (r, l2) => (r, l1 ++ l2) end
  | (Raise e, l1) => (Raise e, l1)
  end.
Proof. reflexivity. Qed.

Lemma run_bind_Ok {A B} (m : M A) (f : A → M B) lib h a l1 :
  m lib h = (Ok a, l1) →
  (m ≫= f) lib h = ((f a lib (h ++ l1)).1, l1 ++ (f a lib (h ++ l1)).2).
Proof. intros Hm. rewrite run_bind, Hm. by destruct (f a lib (h ++ l1)). Qed.

Lemma run_bind_Raise {A B} (m : M A) (f : A → M B) lib h e l1 :
  m lib h = (Raise e, l1) → (m ≫= f) lib h = (Raise e, l1).
Proof. intros Hm. by rewrite run_bind, Hm. Qed.

Lemma run_call_returns c lib h :
  respond lib h c = None → call c lib h = (Ok (), [c]).
Proof. intros Hc. unfold call. by rewrite Hc. Qed.

Lemma run_call_bind {B} c (f : unit → M B) lib h :
  (call c ≫= f) lib h =
  match respond lib h c with
  | Some e => (Raise e, [c])
  | None => ((f () lib (h ++ [c])).1, c :: (f () lib (h ++ [c])).2)
  end.
Proof.
  rewrite run_bind. unfold call.
  destruct (respond lib h c); [done|]. by destruct (f () lib (h ++ [c])).
Qed.

(** A protected call that can only raise [Error] always completes. *)
Lemma run_try_call c lib h :
  (∀ e, respond lib h c = Some e → isinstance_Error e = true) →
  try_except_Error (call c) lib h = (Ok (), [c]).
Proof.
  intros He. unfold try_except_Error, call.
  destruct (respond lib h c) as [e|] eqn:Hc; [|done].
  by rewrite (He e eq_refl).
Qed.

(** ** Invariants of the calls a computation makes *)

Lemma emits_ret {A} P (a : A) : emits P (mret a).
Proof. intros lib h. constructor. Qed.

Lemma emits_raise {A} P e : emits P (@raise A e).
Proof. intros lib h. constructor. Qed.

Lemma emits_call P c : P c → emits P (call c).
Proof.
  intros Hc lib h. unfold call.
  destruct (respond lib h c); simpl; by repeat constructor.
Qed.

Lemma emits_call_video_path (P : Call → Prop) v :
  P (video_path v) → emits P (call_video_path v).
Proof.
  intros Hc lib h. unfold call_video_path.
  destruct (respond lib h (video_path v)); simpl; by repeat constructor.
Qed.

Lemma emits_bind {A B} P (m : M A) (f : A → M B) :
  emits P m → (∀ a, emits P (f a)) → emits P (m ≫= f).
Proof.
  intros Hm Hf lib h. rewrite run_bind.
  specialize (Hm lib h). destruct (m lib h) as [[a|e] l1]; simpl in *; [|done].
  specialize (Hf a lib (h ++ l1)). destruct (f a lib (h ++ l1)) as [r l2]; simpl in *.
  by apply Forall_app.
Qed.

Lemma emits_try P (m : M unit) : emits P m → emits P (try_except_Error m).
Proof.
  intros Hm lib h. unfold try_except_Error. specialize (Hm lib h).
  destruct (m lib h) as [[a|e] l]; simpl in *; [done|].
  by destruct (isinstance_Error e).
Qed.

Lemma emits_for_each {A} P (xs : list A) (body : A → M unit) :
  (∀ x, x ∈ xs → emits P (body x)) → emits P (for_each xs body).
Proof.
  induction xs as [|x xs IH]; intros Hbody; simpl.
  - apply emits_ret.
  - apply emits_bind.
    + apply Hbody. left.
    + intros _. apply IH. intros y Hy. apply Hbody. by right.
Qed.

Lemma emits_os_path_basename P o : emits P (os_path_basename o).
Proof. destruct o; [apply emits_ret | apply emits_raise]. Qed.

Lemma emits_mono {A} (P Q : Call → Prop) (m : M A) :
  (∀ c, P c → Q c) → emits P m → emits Q m.
Proof. intros HPQ Hm lib h. eapply Forall_impl; [apply Hm | done]. Qed.

Lemma omap_none {A B} (f : A → option B) (l : list A) :
  Forall (λ x, f x = None) l → omap f l = [].
Proof. induction 1 as [|x l Hx _ IH]; simpl; [done|]. by rewrite Hx. Qed.

Lemma emits_if {A} P (b : bool) (m1 m2 : M A) :
  emits P m1 → emits P m2 → emits P (if b then m1 else m2).
Proof. by destruct b. Qed.

(** ** Exceptions that cannot escape *)






Lemma for_each_Ok {A} (xs : list A) (body : A → M unit) lib :
  (∀ x h, (body x lib h).1 = Ok ()) → ∀ h, (for_each xs body lib h).1 = Ok ().
Proof.
  intros Hbody. induction xs as [|x xs IH]; intros h; simpl; [done|].
  rewrite run_bind. specialize (Hbody x h).
  destruct (body x lib h) as [[[]|e] l1]; simpl in *; [|done].
  specialize (IH (h ++ l1)). by destruct (for_each xs body lib (h ++ l1)).
Qed.

(** ** Computations that agree on a library *)

Lemma bind_ext {A B} (m1 m2 : M A) (f1 f2 : A → M B) lib :
  (∀ h, m1 lib h = m2 lib h) → (∀ a h, f1 a lib h = f2 a lib h) →
  ∀ h, (m1 ≫= f1) lib h = (m2 ≫= f2) lib h.
Proof.
  intros Hm Hf h. rewrite !run_bind, Hm.
  destruct (m2 lib h) as [[a|e] l1]; [|done]. by rewrite Hf.
Qed.

Lemma try_except_Error_ext (m1 m2 : M unit) lib h :
  m1 lib h = m2 lib h → try_except_Error m1 lib h = try_except_Error m2 lib h.
Proof. intros Hm. unfold try_except_Error. by rewrite Hm. Qed.

Lemma for_each_ext {A} (xs : list A) (f g : A → M unit) lib :
  (∀ x h, f x lib h = g x lib h) → ∀ h, for_each xs f lib h = for_each xs g lib h.
Proof.
  intros Hfg. induction xs as [|x xs IH]; intros h; simpl; [done|].
  apply bind_ext; [apply Hfg | intros _; apply IH].
Qed.

Lemma Forall_omap {A B} (f : A → option B) (P : B → Prop) (l : list A) :
  Forall (λ x, ∀ y, f x = Some y → P y) l → Forall P (omap f l).
Proof.
  induction 1 as [|x l Hx _ IH]; simpl; [constructor|].
  destruct (f x) as [y|] eqn:Hy; [|done]. constructor; [by apply Hx | done].
Qed.

(** The keep/discard condition shared by the three capture options. *)
Lemma decision_spec (s alt : string) (b : bool) :
  String.eqb s "on" || (b && String.eqb s alt) = true ↔
  s = "on" ∨ (b = true ∧ s = alt).
Proof. by rewrite orb_true_iff, andb_true_iff, !String.eqb_eq. Qed.

Lemma decision_false (s alt : string) (b : bool) :
  String.eqb s "on" || (b && String.eqb s alt) = false ↔
  ¬ (s = "on" ∨ (b = true ∧ s = alt)).
Proof. rewrite <- decision_spec. by destruct (_ || _). Qed.

Lemma prefix_append (s t : string) : String.prefix s (s +:+ t) = true.
Proof.
  induction s as [|c s IH]; simpl; [by destruct t|].
  destruct (ascii_dec c c); [done|congruence].
Qed.

(** ** The teardown, stage by stage *)

Section Teardown.

Variable build : Config → FixtureRequest → string → string.

Lemma context_teardown_stages fr cfg req pages :
  context_teardown build fr cfg req pages =
  (stop_tracing build fr cfg req ;;
   take_screenshots build cfg req pages ;;
   call context_close ;;
   save_videos build cfg req pages).
Proof. reflexivity. Qed.

(** *** Stopping the trace *)

Lemma stop_tracing_calls fr cfg req lib h :
  (stop_tracing build fr cfg req lib h).2 =
  if capture_trace fr then
    [tracing_stop
       (if String.eqb (tracing_option fr) "on"
           || (failed_flag req && String.eqb (tracing_option fr) "retain-on-failure")
        then Some (build cfg req "trace.zip") else None)]
  else [].
Proof.
  unfold stop_tracing, call.
  destruct (capture_trace fr); [|done].
  destruct (_ || _); by destruct (respond lib h _).
Qed.

Lemma stop_tracing_Ok fr cfg req lib h :
  stop_returns lib → (stop_tracing build fr cfg req lib h).1 = Ok ().
Proof.
  intros Hstop. unfold stop_tracing.
  destruct (capture_trace fr); [|done].
  destruct (_ || _); by rewrite run_call_returns.
Qed.

(** *** Screenshots *)

Lemma screenshot_loop_run cfg req ixs lib h :
  screenshot_raises_Error lib →
  screenshot_loop build cfg req ixs lib h = (Ok (), map (screenshot_call build cfg req) ixs).
Proof.
  intros Hshot. revert h.
  induction ixs as [|[i pg] ixs IH]; intros h; [done|].
  unfold screenshot_loop in *. simpl for_each.
  erewrite run_bind_Ok; last by (apply run_try_call; intros e; apply Hshot).
  by rewrite IH.
Qed.

Lemma screenshot_loop_emits cfg req ixs :
  emits (λ c, ∃ ip, ip ∈ ixs ∧ c = screenshot_call build cfg req ip)
        (screenshot_loop build cfg req ixs).
Proof.
  apply emits_for_each. intros [i pg] Hin.
  apply emits_try, emits_call. by exists (i, pg).
Qed.

Lemma take_screenshots_run cfg req pages lib h :
  screenshot_raises_Error lib →
  take_screenshots build cfg req pages lib h = (Ok (), screenshot_calls build cfg req pages).
Proof.
  intros Hshot. unfold take_screenshots, screenshot_calls.
  destruct (_ || _); [by apply screenshot_loop_run | done].
Qed.

Lemma take_screenshots_emits cfg req pages :
  emits (λ c, ∃ ip, ip ∈ enumerate pages ∧ c = screenshot_call build cfg req ip)
        (take_screenshots build cfg req pages).
Proof.
  unfold take_screenshots.
  apply emits_if; [apply screenshot_loop_emits | apply emits_ret].
Qed.

Lemma enumerate_from_snd {A} i (xs : list A) : (enumerate_from i xs).*2 = xs.
Proof. revert i. induction xs as [|x xs IH]; intros i; simpl; by rewrite ?IH. Qed.

Lemma screenshot_pages_calls cfg req ixs :
  screenshot_pages (map (screenshot_call build cfg req) ixs) = ixs.*2.
Proof.
  induction ixs as [|[i pg] ixs IH]; [done|].
  change (pg :: screenshot_pages (map (screenshot_call build cfg req) ixs) = pg :: ixs.*2).
  by rewrite IH.
Qed.

(** *** Videos *)

Lemma save_video_emits cfg req v :
  emits (λ c, c = video_path v ∨ ∃ name, c = video_save_as v (build cfg req name))
        (save_video build cfg req v).
Proof.
  apply emits_try, emits_bind.
  - apply emits_call_video_path. by left.
  - intros o. apply emits_bind; [apply emits_os_path_basename|].
    intros name. apply emits_call. right. by exists name.
Qed.

Lemma video_loop_emits cfg req pages :
  emits (λ c, ∃ v, v ∈ videos_of pages ∧
               (c = video_path v ∨ ∃ name, c = video_save_as v (build cfg req name)))
        (video_loop build cfg req pages).
Proof.
  apply emits_for_each. intros pg Hin.
  destruct (page_video pg) as [v|] eqn:Hv; [|apply emits_ret].
  intros lib h. eapply Forall_impl; [apply save_video_emits|].
  intros c Hc. exists v. split; [|done].
  unfold videos_of. apply list_elem_of_omap. by exists pg.
Qed.

Lemma save_videos_emits cfg req pages :
  emits (λ c, ∃ v, v ∈ videos_of pages ∧
               (c = video_path v ∨ ∃ name, c = video_save_as v (build cfg req name)))
        (save_videos build cfg req pages).
Proof.
  unfold save_videos. apply emits_if; [apply video_loop_emits | apply emits_ret].
Qed.

(** *** The whole teardown *)

Lemma after_trace_emits cfg req pages :
  emits (after_trace build cfg req pages)
    (take_screenshots build cfg req pages ;;
     call context_close ;;
     save_videos build cfg req pages).
Proof.
  apply emits_bind.
  - eapply emits_mono; [|apply take_screenshots_emits]. intros c Hc. by left.
  - intros _. apply emits_bind.
    + apply emits_call. right. by left.
    + intros _. eapply emits_mono; [|apply save_videos_emits].
      intros c Hc. right. by right.
Qed.

(** The log of the teardown: the trace stop, if any, and then only
    screenshot, close and video calls. *)
Lemma teardown_log fr cfg req pages lib h :
  ∃ rest,
    (context_teardown build fr cfg req pages lib h).2 =
      (stop_tracing build fr cfg req lib h).2 ++ rest ∧
    Forall (after_trace build cfg req pages) rest.
Proof.
  rewrite context_teardown_stages, run_bind.
  destruct (stop_tracing build fr cfg req lib h) as [[[]|e] l1] eqn:Hstop; simpl.
  - pose proof (after_trace_emits cfg req pages lib (h ++ l1)) as Hrest.
    destruct ((take_screenshots build cfg req pages ;; call context_close ;;
               save_videos build cfg req pages) lib (h ++ l1)) as [r l2].
    by exists l2.
  - exists []. by rewrite app_nil_r.
Qed.

Lemma stop_tracing_run fr cfg req lib h :
  stop_returns lib →
  stop_tracing build fr cfg req lib h = (Ok (), (stop_tracing build fr cfg req lib h).2).
Proof.
  intros Hstop. rewrite <- (stop_tracing_Ok fr cfg req lib h Hstop).
  apply surjective_pairing.
Qed.

(** When the trace stop returns and screenshots raise nothing but
    [Error], the teardown reaches [context.close()]. *)
Lemma teardown_run fr cfg req pages lib h :
  stop_returns lib → screenshot_raises_Error lib →
  let l1 := (stop_tracing build fr cfg req lib h).2 in
  let l2 := screenshot_calls build cfg req pages in
  context_teardown build fr cfg req pages lib h =
    match respond lib (h ++ l1 ++ l2) context_close with
    | Some e => (Raise e, l1 ++ l2 ++ [context_close])
    | None =>
        ((save_videos build cfg req pages lib (h ++ l1 ++ l2 ++ [context_close])).1,
         l1 ++ l2 ++ context_close
           :: (save_videos build cfg req pages lib (h ++ l1 ++ l2 ++ [context_close])).2)
    end.
Proof.
  intros Hstop Hshot l1 l2. subst l1 l2.
  rewrite context_teardown_stages.
  erewrite run_bind_Ok; last by apply stop_tracing_run.
  erewrite run_bind_Ok; last by apply take_screenshots_run.
  rewrite run_call_bind, <- !(assoc_L (++)).
  by destruct (respond lib _ context_close) as [e|].
Qed.

(** Under the same assumptions the log is: the trace stop, the
    screenshots, the close, and then video calls only. *)
Lemma teardown_log_close fr cfg req pages lib h :
  stop_returns lib → screenshot_raises_Error lib →
  ∃ after,
    (context_teardown build fr cfg req pages lib h).2 =
      (stop_tracing build fr cfg req lib h).2 ++ screenshot_calls build cfg req pages
      ++ context_close :: after ∧
    Forall (video_stage_call build cfg req pages) after.
Proof.
  intros Hstop Hshot. rewrite teardown_run by done.
  destruct (respond lib _ context_close) as [e|]; simpl.
  - by exists [].
  - eexists. split; [done|]. apply save_videos_emits.
Qed.

(** *** What the loops can raise *)



(** One video, on a library whose [video.path()] is synchronous. *)
Lemma save_video_sync cfg req v lib h :
  path_is_sync lib →
  ∃ p, video_path_value lib h v = PathLike p ∧
    save_video build cfg req v lib h =
    match respond lib h (video_path v) with
    | Some e => (if isinstance_Error e then Ok () else Raise e, [video_path v])
    | None =>
        let save := video_save_as v (build cfg req (basename p)) in
        (match respond lib (h ++ [video_path v]) save with
         | Some e => if isinstance_Error e then Ok () else Raise e
         | None => Ok ()
         end, [video_path v; save])
    end.
Proof.
  intros Hsync. destruct (Hsync h v) as [p Hp]. exists p. split; [done|].
  unfold save_video, try_except_Error. rewrite run_bind. unfold call_video_path.
  destruct (respond lib h (video_path v)) as [e|]; [by destruct (isinstance_Error e)|].
  rewrite Hp. simpl. rewrite run_bind. simpl. unfold call. rewrite app_nil_r.
  destruct (respond lib _ (video_save_as _ _)) as [e|]; [|done].
  by destruct (isinstance_Error e).
Qed.

Lemma save_video_Ok cfg req v lib h :
  video_raises_Error lib → path_is_sync lib →
  (save_video build cfg req v lib h).1 = Ok ().
Proof.
  intros [Hpath Hsave] Hsync.
  destruct (save_video_sync cfg req v lib h Hsync) as (p & _ & ->).
  destruct (respond lib h (video_path v)) as [e|] eqn:He; simpl.
  - by rewrite (Hpath _ _ _ He).
  - destruct (respond lib _ (video_save_as _ _)) as [e|] eqn:He'; [|done].
    by rewrite (Hsave _ _ _ _ He').
Qed.

Lemma save_videos_Ok cfg req pages lib h :
  video_raises_Error lib → path_is_sync lib →
  (save_videos build cfg req pages lib h).1 = Ok ().
Proof.
  intros Hvid Hsync. unfold save_videos. destruct (_ || _); [|done].
  apply for_each_Ok. intros pg h'.
  destruct (page_video pg); [by apply save_video_Ok | done].
Qed.

(** With video calls that return, every video is saved, in page order. *)
Lemma video_loop_saves cfg req pages lib h :
  video_returns lib → path_is_sync lib →
  (video_loop build cfg req pages lib h).1 = Ok () ∧
  videos_saved (video_loop build cfg req pages lib h).2 = videos_of pages.
Proof.
  intros [Hpath Hsave] Hsync. revert h.
  induction pages as [|pg pages IH]; intros h; [done|].
  unfold video_loop in *. simpl for_each. rewrite run_bind.
  unfold videos_of. simpl omap.
  destruct (page_video pg) as [v|].
  - destruct (save_video_sync cfg req v lib h Hsync) as (p & _ & ->).
    rewrite Hpath. cbv zeta. rewrite Hsave. simpl.
    destruct (IH (h ++ [video_path v; video_save_as v (build cfg req (basename p))]))
      as [IH1 IH2].
    destruct (for_each pages _ lib _) as [r l2]. simpl in *. by rewrite IH1, IH2.
  - simpl. destruct (IH (h ++ [])) as [IH1 IH2].
    by destruct (for_each pages _ lib _) as [r l2].
Qed.

(** *** Requests that give the same outcome and the same paths *)

Lemma context_teardown_ext fr cfg r1 r2 pages lib :
  failed_flag r1 = failed_flag r2 →
  (∀ name, build cfg r1 name = build cfg r2 name) →
  ∀ h, context_teardown build fr cfg r1 pages lib h =
       context_teardown build fr cfg r2 pages lib h.
Proof.
  intros Hf Hb. rewrite !context_teardown_stages.
  apply bind_ext.
  { intros h. unfold stop_tracing. by rewrite Hf, Hb. }
  intros _. apply bind_ext.
  { intros h. unfold take_screenshots. rewrite Hf. destruct (_ || _); [|done].
    apply for_each_ext. intros [i pg] h'. unfold screenshot_path. by rewrite Hf, Hb. }
  intros _. apply bind_ext; [done|].
  intros _ h. unfold save_videos. rewrite Hf. destruct (_ || _); [|done].
  apply for_each_ext. intros pg h'. destruct (page_video pg) as [v|]; [|done].
  apply try_except_Error_ext, bind_ext; [done|].
  intros o h''. apply bind_ext; [done|]. intros name h3. by rewrite Hb.
Qed.

(** With an un-awaited coroutine for [video.path()], preserving the
    first video raises [TypeError] out of the teardown. *)
Lemma video_preservation_raises_TypeError fr cfg req pg pages v lib h :
  stop_returns lib → screenshot_raises_Error lib → close_returns lib →
  (∀ h', respond lib h' (video_path v) = None) →
  (∀ h', video_path_value lib h' v = Coroutine) →
  opt_video cfg = "on" →
  page_video pg = Some v →
  ∃ msg, (context_teardown build fr cfg req (pg :: pages) lib h).1 = Raise (TypeError msg).
Proof.
  intros Hstop Hshot Hclose Hpath Hco Hopt Hv. eexists.
  rewrite teardown_run by done. rewrite Hclose. simpl.
  unfold save_videos. rewrite Hopt. simpl.
  unfold video_loop. simpl for_each. rewrite run_bind, Hv. unfold save_video, try_except_Error.
  rewrite run_bind. unfold call_video_path. rewrite Hpath, Hco. simpl. reflexivity.
Qed.

End Teardown.

(** ** The fixture as a whole *)

Section Fixture.

Variable slugify : string → string.
Variable build : Config → FixtureRequest → string → string.

(** The frame a completed set-up leaves behind. *)
Lemma context_setup_frame bca cfg req lib h fr l :
  context_setup slugify bca cfg req lib h = (Ok fr, l) →
  fr = {| tracing_option := opt_tracing cfg;
          capture_trace := str_in (opt_tracing cfg) ["on"; "retain-on-failure"] |}.
Proof.
  unfold context_setup. rewrite run_call_bind.
  destruct (respond lib h _); [done|].
  rewrite run_bind.
  destruct (str_in (opt_tracing cfg) _); simpl.
  - unfold call. destruct (respond lib _ _); simpl; congruence.
  - congruence.
Qed.

Lemma context_setup_run bca cfg req lib h :
  setup_returns lib →
  ∃ kw,
    context_setup slugify bca cfg req lib h =
    (Ok {| tracing_option := opt_tracing cfg;
           capture_trace := str_in (opt_tracing cfg) ["on"; "retain-on-failure"] |},
     new_context kw ::
     if str_in (opt_tracing cfg) ["on"; "retain-on-failure"]
     then [tracing_start (slugify (nodeid (node req))) true true true] else []).
Proof.
  intros [Hnew Hstart]. eexists. unfold context_setup.
  rewrite run_call_bind, Hnew, run_bind.
  destruct (str_in (opt_tracing cfg) _); simpl; [|done].
  by rewrite run_call_returns.
Qed.

Lemma trace_files_after_trace cfg req pages rest :
  Forall (after_trace build cfg req pages) rest →
  tracing_stops rest = [] ∧ trace_files rest = [].
Proof.
  intros Hrest. split; apply omap_none; (eapply Forall_impl; [exact Hrest|]);
    intros c [(ip & _ & ->)|[->|(v & _ & [->|[name ->]])]]; done.
Qed.

(** C1. Trace retention: for every value of the tracing option, so for
    each of its three choices, after a set-up that completed and for a
    test that passed or failed, the teardown hands [tracing.stop] the
    path of the trace file exactly when the option is ["on"], or the test
    failed and the option is ["retain-on-failure"]; in every other case no
    call of the teardown carries a trace path. *)
Theorem trace_retention_decision bca cfg req0 lib h0 fr l0 req pages b h :
  context_setup slugify bca cfg req0 lib h0 = (Ok fr, l0) →
  rep_call (node req) = Some {| failed := b |} →
  let log := (context_teardown build fr cfg req pages lib h).2 in
  (opt_tracing cfg = "on" ∨ (b = true ∧ opt_tracing cfg = "retain-on-failure") →
     trace_files log = [build cfg req "trace.zip"]) ∧
  (¬ (opt_tracing cfg = "on" ∨ (b = true ∧ opt_tracing cfg = "retain-on-failure")) →
     trace_files log = []).
Proof.
  intros Hsetup Hrep log. subst log.
  apply context_setup_frame in Hsetup. subst fr.
  destruct (teardown_log build
    {| tracing_option := opt_tracing cfg;
       capture_trace := str_in (opt_tracing cfg) ["on"; "retain-on-failure"] |}
    cfg req pages lib h) as (rest & -> & Hrest).
  apply trace_files_after_trace in Hrest as [_ Hrest].
  unfold trace_files in *. rewrite omap_app, Hrest, app_nil_r, stop_tracing_calls.
  unfold failed_flag. rewrite Hrep. cbn [tracing_option capture_trace failed].
  destruct (_ || _) eqn:Hkeep.
  - apply decision_spec in Hkeep as Hyes. split; [intros _|by intros []].
    assert (str_in (opt_tracing cfg) ["on"; "retain-on-failure"] = true) as ->; [|done].
    unfold str_in. simpl. destruct Hyes as [->|[_ ->]]; [done|].
    by rewrite orb_true_r.
  - apply decision_false in Hkeep. split; [done|intros _].
    by destruct (str_in _ _).
Qed.

Lemma stop_tracing_no_screenshot fr cfg req lib h :
  Forall (λ c, ∃ p, c = tracing_stop p) (stop_tracing build fr cfg req lib h).2.
Proof.
  rewrite stop_tracing_calls. destruct (capture_trace fr); repeat constructor.
  by eexists.
Qed.

Lemma screenshot_pages_screenshot_calls cfg req pages :
  screenshot_pages (screenshot_calls build cfg req pages) =
  if String.eqb (opt_screenshot cfg) "on"
     || (failed_flag req && String.eqb (opt_screenshot cfg) "only-on-failure")
  then pages else [].
Proof.
  unfold screenshot_calls. destruct (_ || _); [|done].
  rewrite screenshot_pages_calls. apply enumerate_from_snd.
Qed.

(** C2. Screenshot capture: for every value of the screenshot option, so
    for each of its three choices, and a test that passed or failed, on a
    library whose [tracing.stop] returns and whose [page.screenshot]
    raises nothing but [Error], the teardown calls [page.screenshot] once
    on each page opened by the test, in order, exactly when the option is
    ["on"], or the test failed and the option is ["only-on-failure"];
    otherwise it takes no screenshot. *)
Theorem screenshot_capture_decision fr cfg req pages b lib h :
  rep_call (node req) = Some {| failed := b |} →
  stop_returns lib →
  screenshot_raises_Error lib →
  let log := (context_teardown build fr cfg req pages lib h).2 in
  (opt_screenshot cfg = "on" ∨ (b = true ∧ opt_screenshot cfg = "only-on-failure") →
     screenshot_pages log = pages) ∧
  (¬ (opt_screenshot cfg = "on" ∨ (b = true ∧ opt_screenshot cfg = "only-on-failure")) →
     screenshot_pages log = []).
Proof.
  intros Hrep Hstop Hshot log. subst log.
  destruct (teardown_log_close build fr cfg req pages lib h Hstop Hshot)
    as (after & -> & Hafter).
  assert (screenshot_pages (stop_tracing build fr cfg req lib h).2 = []) as H1.
  { apply omap_none. eapply Forall_impl; [apply stop_tracing_no_screenshot|].
    by intros c [p ->]. }
  assert (screenshot_pages (context_close :: after) = []) as H2.
  { apply omap_none. constructor; [done|].
    eapply Forall_impl; [exact Hafter|]. by intros c (v & _ & [->|[name ->]]). }
  unfold screenshot_pages in *. rewrite !omap_app, H1, H2, app_nil_r. simpl.
  fold (screenshot_pages (screenshot_calls build cfg req pages)).
  rewrite screenshot_pages_screenshot_calls.
  unfold failed_flag. rewrite Hrep. cbn [failed].
  destruct (_ || _) eqn:Hkeep.
  - apply decision_spec in Hkeep. by split; [|intros []].
  - apply decision_false in Hkeep. by split.
Qed.

(** C7. Full-page pass-through: every [page.screenshot] call of the
    teardown, whatever the library does, carries as [full_page] the value
    of the [--full-page-screenshot] option, and a timeout of 5000. *)
Theorem full_page_screenshot_pass_through fr cfg req pages lib h pg t p f :
  page_screenshot pg t p f ∈ (context_teardown build fr cfg req pages lib h).2 →
  f = opt_full_page_screenshot cfg ∧ t = 5000%Z.
Proof.
  destruct (teardown_log build fr cfg req pages lib h) as (rest & -> & Hrest).
  intros [Hin|Hin]%elem_of_app.
  - pose proof (stop_tracing_no_screenshot fr cfg req lib h) as Hstop.
    rewrite Forall_forall in Hstop. by destruct (Hstop _ Hin) as [q ?].
  - rewrite Forall_forall in Hrest.
    destruct (Hrest _ Hin) as [(ip & _ & Heq)|[?|(v & _ & [?|[name ?]])]]; try done.
    unfold screenshot_call in Heq. by injection Heq as -> -> -> ->.
Qed.

(** C10. Teardown ordering: for every setting and outcome, on a library
    whose [tracing.stop] returns and whose [page.screenshot] raises
    nothing but [Error], the log of the teardown splits around a single
    [context.close()]: before it only the trace stop and screenshots,
    after it only video calls. *)
Theorem context_closed_once_in_order fr cfg req pages lib h :
  stop_returns lib →
  screenshot_raises_Error lib →
  ∃ before after,
    (context_teardown build fr cfg req pages lib h).2 =
      before ++ context_close :: after ∧
    Forall is_trace_or_screenshot before ∧
    Forall is_video_call after.
Proof.
  intros Hstop Hshot.
  destruct (teardown_log_close build fr cfg req pages lib h Hstop Hshot)
    as (after & Hlog & Hafter).
  exists ((stop_tracing build fr cfg req lib h).2 ++ screenshot_calls build cfg req pages),
         after.
  split; [by rewrite <- (assoc_L (++))|]. split.
  - apply Forall_app. split.
    + eapply Forall_impl; [apply stop_tracing_no_screenshot|]. by intros c [q ->].
    + unfold screenshot_calls. destruct (_ || _); [|constructor].
      apply Forall_forall. intros c (ip & -> & _)%list_elem_of_fmap. done.
  - eapply Forall_impl; [exact Hafter|]. by intros c (v & _ & [->|[name ->]]).
Qed.



(** On a library whose [video.path()] yields a path and whose captures
    raise nothing but [Error], the teardown completes. *)
Lemma teardown_completes_when_path_is_sync fr cfg req pages lib h :
  stop_returns lib → close_returns lib →
  screenshot_raises_Error lib → video_raises_Error lib → path_is_sync lib →
  (context_teardown build fr cfg req pages lib h).1 = Ok ().
Proof.
  intros Hstop Hclose Hshot Hvid Hsync. rewrite teardown_run by done.
  rewrite Hclose. simpl. by apply save_videos_Ok.
Qed.


(** The decision table for videos, on a library whose [video.path()] is
    synchronous and whose calls return: every page that has a video has
    it saved exactly when the option is ["on"], or the test failed and
    the option is ["retain-on-failure"]; pages without a video are
    skipped. *)
Lemma video_preserved_when_path_is_sync fr cfg req pages b lib h :
  rep_call (node req) = Some {| failed := b |} →
  stop_returns lib → screenshot_raises_Error lib → close_returns lib →
  video_returns lib → path_is_sync lib →
  let log := (context_teardown build fr cfg req pages lib h).2 in
  (opt_video cfg = "on" ∨ (b = true ∧ opt_video cfg = "retain-on-failure") →
     videos_saved log = videos_of pages) ∧
  (¬ (opt_video cfg = "on" ∨ (b = true ∧ opt_video cfg = "retain-on-failure")) →
     videos_saved log = []).
Proof.
  intros Hrep Hstop Hshot Hclose Hvid Hsync log. subst log.
  rewrite teardown_run by done. rewrite Hclose. simpl.
  assert (videos_saved (stop_tracing build fr cfg req lib h).2 = []) as H1.
  { apply omap_none. eapply Forall_impl; [apply stop_tracing_no_screenshot|].
    by intros c [p ->]. }
  assert (videos_saved (screenshot_calls build cfg req pages) = []) as H2.
  { apply omap_none. unfold screenshot_calls. destruct (_ || _); [|constructor].
    apply Forall_forall. by intros c (ip & -> & _)%list_elem_of_fmap. }
  unfold videos_saved in *. rewrite !omap_app, H1, H2. simpl.
  unfold save_videos, failed_flag. rewrite Hrep. cbn [failed].
  destruct (_ || _) eqn:Hkeep.
  - apply decision_spec in Hkeep. split; [intros _|by intros []].
    by apply video_loop_saves.
  - apply decision_false in Hkeep. by split.
Qed.

(** C3. Video preservation, on [playwright.async_api]: the option is
    ["on"], the test passed and opened a page that has a video.  The
    un-awaited [video.path()] is a coroutine object, [os.path.basename]
    raises [TypeError], which [except Error] does not catch: the teardown
    fails after [context.close()] and [video.save_as] is never called. *)
Theorem video_not_saved_on_async_api :
  let cfg := sample_config "off" "on" "off" false in
  let fr := {| tracing_option := "off"; capture_trace := false |} in
  let req := sample_request (Some {| failed := false |}) in
  videos_of sample_pages = [ {| video_id := 1 |} ] ∧
  context_teardown build fr cfg req sample_pages async_api_library [] =
    (Raise (TypeError "expected str, bytes or os.PathLike object, not coroutine"),
     [context_close; video_path {| video_id := 1 |}]) ∧
  videos_saved (context_teardown build fr cfg req sample_pages async_api_library []).2 = [].
Proof. by repeat split. Qed.

(** C8. A node without [rep_call] is treated as a failed test: when the
    path builder gives both requests the same paths, the teardown for a
    node that has no [rep_call] attribute makes the same calls and ends
    the same way as the teardown for the same node with a failed
    report. *)
Theorem missing_report_counts_as_failure fr cfg nid marks up pages lib h :
  let req_missing :=
    {| node := {| nodeid := nid; own_markers := marks; rep_call := None;
                  parent := up |} |} in
  let req_failed :=
    {| node := {| nodeid := nid; own_markers := marks;
                  rep_call := Some {| failed := true |}; parent := up |} |} in
  (∀ name, build cfg req_missing name = build cfg req_failed name) →
  context_teardown build fr cfg req_missing pages lib h =
  context_teardown build fr cfg req_failed pages lib h.
Proof. intros req_missing req_failed Hb. by apply context_teardown_ext. Qed.

(** *** Set-up followed by teardown *)

Lemma context_run bca cfg req t lib h :
  setup_returns lib →
  ∃ kw,
    let fr := {| tracing_option := opt_tracing cfg;
                 capture_trace := str_in (opt_tracing cfg) ["on"; "retain-on-failure"] |} in
    let l0 := new_context kw ::
              if str_in (opt_tracing cfg) ["on"; "retain-on-failure"]
              then [tracing_start (slugify (nodeid (node req))) true true true] else [] in
    let down := context_teardown build fr cfg (after_test req t) (opened_pages t)
                  lib (h ++ l0) in
    context slugify build bca cfg req t lib h = (down.1, l0 ++ down.2).
Proof.
  intros Hsetup. destruct (context_setup_run bca cfg req lib h Hsetup) as [kw Hrun].
  exists kw. intros fr l0 down. unfold context. by erewrite run_bind_Ok.
Qed.

Lemma teardown_no_start fr cfg req pages lib h :
  tracing_starts (context_teardown build fr cfg req pages lib h).2 = [].
Proof.
  destruct (teardown_log build fr cfg req pages lib h) as (rest & -> & Hrest).
  unfold tracing_starts. rewrite omap_app.
  rewrite (omap_none _ rest), app_nil_r.
  - apply omap_none. eapply Forall_impl; [apply stop_tracing_no_screenshot|].
    by intros c [p ->].
  - eapply Forall_impl; [exact Hrest|].
    intros c [(ip & _ & ->)|[->|(v & _ & [->|[name ->]])]]; done.
Qed.

Lemma teardown_stops fr cfg req pages lib h :
  tracing_stops (context_teardown build fr cfg req pages lib h).2 =
  if capture_trace fr then
    [if String.eqb (tracing_option fr) "on"
        || (failed_flag req && String.eqb (tracing_option fr) "retain-on-failure")
     then Some (build cfg req "trace.zip") else None]
  else [].
Proof.
  destruct (teardown_log build fr cfg req pages lib h) as (rest & -> & Hrest).
  apply trace_files_after_trace in Hrest as [Hrest _].
  unfold tracing_stops in *. rewrite omap_app, Hrest, app_nil_r, stop_tracing_calls.
  by destruct (capture_trace fr).
Qed.

Lemma omap_cons_app {A B} (f : A → option B) x l1 l2 :
  omap f ((x :: l1) ++ l2) = omap f [x] ++ omap f l1 ++ omap f l2.
Proof. by rewrite <- !omap_app. Qed.

(** C9. Tracing start/stop pairing: on a library whose
    [browser.new_context] and [tracing.start] return, a run of the fixture
    calls [tracing.start] once and [tracing.stop] once when the tracing
    option is ["on"] or ["retain-on-failure"], the stop carrying a path
    exactly when the trace is retained; for any other value of the option,
    ["off"] among them, it calls neither. *)
Theorem tracing_start_stop_pairing bca cfg req t lib h :
  setup_returns lib →
  let log := (context slugify build bca cfg req t lib h).2 in
  let failed := from_option failed true (call_report t) in
  (opt_tracing cfg = "on" ∨ opt_tracing cfg = "retain-on-failure" →
     tracing_starts log = [slugify (nodeid (node req))] ∧
     ∃ p, tracing_stops log = [p] ∧
       (is_Some p ↔
        opt_tracing cfg = "on" ∨ (failed = true ∧ opt_tracing cfg = "retain-on-failure"))) ∧
  (¬ (opt_tracing cfg = "on" ∨ opt_tracing cfg = "retain-on-failure") →
     tracing_starts log = [] ∧ tracing_stops log = []).
Proof.
  intros Hsetup log fl.
  destruct (context_run bca cfg req t lib h Hsetup) as [kw Hrun].
  subst log. rewrite Hrun. clear Hrun. cbv zeta. cbn [snd].
  unfold tracing_starts, tracing_stops.
  rewrite !omap_cons_app.
  fold tracing_starts tracing_stops.
  rewrite teardown_no_start, teardown_stops.
  assert (failed_flag (after_test req t) = fl) as ->.
  { unfold failed_flag, fl. simpl. by destruct (call_report t). }
  cbn [tracing_option capture_trace].
  assert (str_in (opt_tracing cfg) ["on"; "retain-on-failure"] = true ↔
          opt_tracing cfg = "on" ∨ opt_tracing cfg = "retain-on-failure") as Hcap.
  { unfold str_in. simpl. by rewrite orb_false_r, orb_true_iff, !String.eqb_eq. }
  destruct (str_in _ _).
  - split; [intros _|intros []; by apply Hcap].
    split; [done|]. eexists. split; [done|].
    destruct (_ || _) eqn:Hkeep.
    + apply decision_spec in Hkeep. by split.
    + apply decision_false in Hkeep. split; [by intros [x Hx]|done].
  - split; [|done]. intros Hon. by apply Hcap in Hon.
Qed.

(** *** Where artifacts go *)

Lemma context_setup_emits bca cfg req :
  emits (λ c, (∃ kw, c = new_context kw) ∨
              c = tracing_start (slugify (nodeid (node req))) true true true)
        (context_setup slugify bca cfg req).
Proof.
  unfold context_setup. apply emits_bind.
  { apply emits_call. left. by eexists. }
  intros _. apply emits_bind; [|intros _; apply emits_ret].
  apply emits_if; [|apply emits_ret]. apply emits_call. by right.
Qed.

Lemma context_teardown_emits fr cfg req pages :
  emits (λ c, c = tracing_stop None ∨
              c = tracing_stop (Some (build cfg req "trace.zip")) ∨
              after_trace build cfg req pages c)
        (context_teardown build fr cfg req pages).
Proof.
  intros lib h.
  destruct (teardown_log build fr cfg req pages lib h) as (rest & -> & Hrest).
  apply Forall_app. split.
  - rewrite stop_tracing_calls. destruct (capture_trace fr); [|constructor].
    constructor; [|constructor]. destruct (_ || _); auto.
  - eapply Forall_impl; [exact Hrest|]. auto.
Qed.

(** Every artifact path of a run comes from the path builder, and the
    trace is titled with the slug of the node id. *)
Lemma artifacts_from_builder bca cfg req t lib h :
  let log := (context slugify build bca cfg req t lib h).2 in
  Forall (λ title, title = slugify (nodeid (node req))) (tracing_starts log) ∧
  Forall (λ p, ∃ name, p = build cfg (after_test req t) name) (artifact_paths log).
Proof.
  intros log.
  assert (Forall (λ c,
            ((∃ kw, c = new_context kw) ∨
             c = tracing_start (slugify (nodeid (node req))) true true true) ∨
            (c = tracing_stop None ∨
             c = tracing_stop (Some (build cfg (after_test req t) "trace.zip")) ∨
             after_trace build cfg (after_test req t) (opened_pages t) c)) log) as Hlog.
  { subst log. revert lib h. apply emits_bind.
    - eapply emits_mono; [|apply context_setup_emits]. auto.
    - intros fr. eapply emits_mono; [|apply context_teardown_emits]. auto. }
  split; apply Forall_omap; (eapply Forall_impl; [exact Hlog|]); intros c Hc y Hy.
  - destruct Hc as [[[kw ->]| ->]|[->|[->|[(ip & _ & ->)|[->|(v & _ & [->|[name ->]])]]]]];
      simpl in Hy; congruence.
  - destruct Hc as [[[kw ->]| ->]|[->|[->|[(ip & _ & ->)|[->|(v & _ & [->|[name ->]])]]]]];
      simpl in Hy; try discriminate; injection Hy as <-; by eexists.
Qed.

End Fixture.

(** C5. Per-test artifact placement, with the path builder modelled from
    the spec: in every run of the fixture, each path at which a trace, a
    screenshot or a video is written is produced by the builder from the
    request and lies under the per-test directory, the output directory
    followed by the slug of the node id; and the trace is titled with the
    slug of the node id. *)
Theorem artifacts_under_test_folder (slugify : string → string) bca cfg req t lib h :
  let build := base_build_artifact_test_folder slugify in
  let log := (context slugify build bca cfg req t lib h).2 in
  Forall (λ title, title = slugify (nodeid (node req))) (tracing_starts log) ∧
  Forall (λ p, (∃ name, p = build cfg (after_test req t) name) ∧
               String.prefix
                 (opt_output cfg +:+ "/" +:+ slugify (nodeid (node req)) +:+ "/") p = true)
         (artifact_paths log).
Proof.
  intros build log.
  destruct (artifacts_from_builder slugify build bca cfg req t lib h) as [Htitle Hpaths].
  split; [exact Htitle|].
  eapply Forall_impl; [exact Hpaths|]. intros p [name ->].
  split; [by exists name|]. apply prefix_append.
Qed.

(** ** Option registration *)

Lemma lookup_addoption group o (parser : Parser) :
  addoption group o parser !! group = add_to_group o <$> parser !! group.
Proof. unfold addoption. apply lookup_alter_eq. Qed.

Lemma lookup_getgroup name desc (parser : Parser) :
  getgroup name desc parser !! name =
  Some (from_option id {| description := desc; options := [] |} (parser !! name)).
Proof.
  unfold getgroup. destruct (parser !! name) as [g|] eqn:Hg; simpl; [done|].
  apply lookup_insert_eq.
Qed.

(** C6. Option registration: on any parser, [pytest_addoption] appends to
    the ["playwright"] group exactly the ten options [--browser] (choices
    chromium, firefox and webkit, appending, default the empty list),
    [--headed] (default false), [--browser-channel] (default none),
    [--slowmo] (an integer, default 0), [--device] (default none),
    [--output] (default ["test-results"]), [--tracing], [--video] and
    [--screenshot] (each default ["off"] with its three choices) and
    [--full-page-screenshot] (default false). *)
Theorem pytest_addoption_registers (parser : Parser) :
  ∃ added,
    playwright_options (pytest_addoption parser) = playwright_options parser ++ added ∧
    option_name <$> added =
      ["--browser"; "--headed"; "--browser-channel"; "--slowmo"; "--device"; "--output";
       "--tracing"; "--video"; "--screenshot"; "--full-page-screenshot"] ∧
    (∃ o, find_option "--browser" added = Some o ∧
          choices o = Some ["chromium"; "firefox"; "webkit"] ∧
          action o = Some "append" ∧ default o = VList []) ∧
    (∃ o, find_option "--headed" added = Some o ∧
          action o = Some "store_true" ∧ default o = VBool false) ∧
    (∃ o, find_option "--browser-channel" added = Some o ∧ default o = VNone) ∧
    (∃ o, find_option "--slowmo" added = Some o ∧
          type o = Some "int" ∧ default o = VInt 0) ∧
    (∃ o, find_option "--device" added = Some o ∧ default o = VNone) ∧
    (∃ o, find_option "--output" added = Some o ∧ default o = VStr "test-results") ∧
    (∃ o, find_option "--tracing" added = Some o ∧
          default o = VStr "off" ∧ choices o = Some ["on"; "off"; "retain-on-failure"]) ∧
    (∃ o, find_option "--video" added = Some o ∧
          default o = VStr "off" ∧ choices o = Some ["on"; "off"; "retain-on-failure"]) ∧
    (∃ o, find_option "--screenshot" added = Some o ∧
          default o = VStr "off" ∧ choices o = Some ["on"; "off"; "only-on-failure"]) ∧
    (∃ o, find_option "--full-page-screenshot" added = Some o ∧
          action o = Some "store_true" ∧ default o = VBool false).
Proof.
  eexists. split.
  - unfold playwright_options, pytest_addoption. cbv zeta.
    rewrite !lookup_addoption, lookup_getgroup.
    destruct (parser !! "playwright") as [g|]; simpl.
    + rewrite <- !(assoc_L (++)). reflexivity.
    + reflexivity.
  - simpl. repeat split; eexists; by repeat split.
Qed.

(** ** Runs on concrete inputs *)

Example basename_examples :
  basename "/tmp/videos/1.webm" = "1.webm" ∧ basename "1.webm" = "1.webm" ∧
  basename "videos/" = "".
Proof. by repeat split. Qed.

(** No report, everything on failure only, screenshots and video saves
    failing: every capture is attempted and the teardown completes. *)
Example teardown_with_failing_captures :
  context_teardown (base_build_artifact_test_folder sample_slugify)
    {| tracing_option := "retain-on-failure"; capture_trace := true |}
    (sample_config "retain-on-failure" "retain-on-failure" "only-on-failure" true)
    (sample_request None) sample_pages failing_library [] =
  (Ok (),
   [tracing_stop (Some "test-results/tests-test-login-py--test-ok/trace.zip");
    page_screenshot {| page_id := 1; page_video := Some {| video_id := 1 |} |} 5000
      "test-results/tests-test-login-py--test-ok/test-failed-1.png" true;
    page_screenshot {| page_id := 2; page_video := None |} 5000
      "test-results/tests-test-login-py--test-ok/test-failed-2.png" true;
    context_close;
    video_path {| video_id := 1 |};
    video_save_as {| video_id := 1 |} "test-results/tests-test-login-py--test-ok/1.webm"]).
Proof. reflexivity. Qed.

(** The same settings after a test that passed: the trace is discarded
    and nothing else is captured. *)
Example teardown_after_passed_test :
  context_teardown (base_build_artifact_test_folder sample_slugify)
    {| tracing_option := "retain-on-failure"; capture_trace := true |}
    (sample_config "retain-on-failure" "retain-on-failure" "only-on-failure" true)
    (sample_request (Some {| failed := false |})) sample_pages failing_library [] =
  (Ok (), [tracing_stop None; context_close]).
Proof. reflexivity. Qed.

(** Both values of [--full-page-screenshot] reach [page.screenshot]. *)
Example full_page_flag_examples :
  ∀ flag,
    screenshot_full_page
      (context_teardown (base_build_artifact_test_folder sample_slugify)
         {| tracing_option := "off"; capture_trace := false |}
         (sample_config "off" "off" "on" flag)
         (sample_request (Some {| failed := false |})) sample_pages sync_library []).2
    = [flag; flag].
Proof. by intros []. Qed.

(** A marker set on the test's class, the test itself carrying none: its
    arguments reach [browser.new_context]; a marker on the test itself
    takes precedence over it. *)
Example class_marker_reaches_new_context :
  let on_class :=
    {| nodeid := "tests/test_login.py::TestLogin"; own_markers :=
         [ {| mark_name := "browser_context_args";
              mark_kwargs := {[ "locale" := VStr "ja-JP" ]} |} ];
       rep_call := None; parent := None |} in
  let inherits :=
    {| node := {| nodeid := "tests/test_login.py::TestLogin::test_ok";
                  own_markers := []; rep_call := None; parent := Some on_class |} |} in
  let overrides :=
    {| node := {| nodeid := "tests/test_login.py::TestLogin::test_de";
                  own_markers :=
                    [ {| mark_name := "browser_context_args";
                         mark_kwargs := {[ "locale" := VStr "de-DE" ]} |} ];
                  rep_call := None; parent := Some on_class |} |} in
  updated_context_args ∅ inherits !! "locale" = Some (VStr "ja-JP") ∧
  updated_context_args ∅ overrides !! "locale" = Some (VStr "de-DE").
Proof. by split. Qed.

(** ** The theorems at concrete inputs *)

Lemma sync_library_stop_returns : stop_returns sync_library.
Proof. by intros h p. Qed.

Lemma sync_library_screenshot_raises_Error : screenshot_raises_Error sync_library.
Proof. intros h pg t p f e He. discriminate He. Qed.

Lemma sync_library_setup_returns : setup_returns sync_library.
Proof. by split. Qed.

Lemma failing_library_stop_returns : stop_returns failing_library.
Proof. by intros h p. Qed.

Lemma failing_library_close_returns : close_returns failing_library.
Proof. by intros h. Qed.

Lemma failing_library_screenshot_raises_Error : screenshot_raises_Error failing_library.
Proof. intros h pg t p f e He. simpl in He. by injection He as <-. Qed.

Lemma failing_library_video_raises_Error : video_raises_Error failing_library.
Proof.
  split.
  - intros h v e He. discriminate He.
  - intros h v p e He. simpl in He. by injection He as <-.
Qed.

Lemma failing_library_path_is_sync : path_is_sync failing_library.
Proof. intros h v. by eexists. Qed.

(** On a library whose [video.path()] is synchronous, a failed test with
    [--video retain-on-failure] has the one recorded video saved. *)
Example video_preserved_on_sync_library :
  videos_saved
    (context_teardown (base_build_artifact_test_folder sample_slugify)
       {| tracing_option := "off"; capture_trace := false |}
       (sample_config "off" "retain-on-failure" "off" false)
       (sample_request (Some {| failed := true |})) sample_pages sync_library []).2
  = [ {| video_id := 1 |} ].
Proof.
  refine (proj1 (video_preserved_when_path_is_sync _ _ _ _ _ true sync_library [] _
                   sync_library_stop_returns sync_library_screenshot_raises_Error
                   _ _ _) _).
  - reflexivity.
  - by intros h.
  - by split.
  - intros h v. by eexists.
  - right. by split.
Qed.

(** A failed test with [--tracing retain-on-failure]: the trace is kept. *)
Lemma trace_retention_decision_witness :
  let build := base_build_artifact_test_folder sample_slugify in
  let cfg := sample_config "retain-on-failure" "off" "off" false in
  let req := sample_request (Some {| failed := true |}) in
  let fr := {| tracing_option := "retain-on-failure"; capture_trace := true |} in
  trace_files (context_teardown build fr cfg req sample_pages sync_library []).2
  = ["test-results/tests-test-login-py--test-ok/trace.zip"].
Proof.
  intros build cfg req fr.
  refine (proj1 (trace_retention_decision sample_slugify build ∅ cfg (sample_request None)
                   sync_library [] fr _ req sample_pages true [] _ _) _).
  - reflexivity.
  - reflexivity.
  - right. by split.
Defined.

(** A failed test with [--screenshot only-on-failure], screenshots timing
    out: one screenshot call per page all the same. *)
Lemma screenshot_capture_decision_witness :
  let build := base_build_artifact_test_folder sample_slugify in
  let cfg := sample_config "off" "off" "only-on-failure" true in
  let req := sample_request (Some {| failed := true |}) in
  let fr := {| tracing_option := "off"; capture_trace := false |} in
  screenshot_pages (context_teardown build fr cfg req sample_pages failing_library []).2
  = sample_pages.
Proof.
  intros build cfg req fr.
  refine (proj1 (screenshot_capture_decision build fr cfg req sample_pages true
                   failing_library [] _ _ _) _).
  - reflexivity.
  - exact failing_library_stop_returns.
  - exact failing_library_screenshot_raises_Error.
  - right. by split.
Defined.



(** The second page's screenshot carries the flag, here [true]. *)
Lemma full_page_screenshot_pass_through_witness :
  let cfg := sample_config "off" "off" "on" true in
  true = opt_full_page_screenshot cfg ∧ 5000%Z = 5000%Z.
Proof.
  intros cfg.
  refine (full_page_screenshot_pass_through (base_build_artifact_test_folder sample_slugify)
            {| tracing_option := "off"; capture_trace := false |} cfg
            (sample_request (Some {| failed := false |})) sample_pages sync_library []
            {| page_id := 2; page_video := None |} 5000
            "test-results/tests-test-login-py--test-ok/test-finished-2.png" true _).
  apply list_elem_of_In. right. left. reflexivity.
Defined.

(** A node with no report, against the same node with a failed one. *)
Lemma missing_report_counts_as_failure_witness :
  let build := base_build_artifact_test_folder sample_slugify in
  let cfg := sample_config "retain-on-failure" "retain-on-failure" "only-on-failure" false in
  let fr := {| tracing_option := "retain-on-failure"; capture_trace := true |} in
  context_teardown build fr cfg (sample_request None) sample_pages sync_library [] =
  context_teardown build fr cfg (sample_request (Some {| failed := true |}))
    sample_pages sync_library [].
Proof.
  intros build cfg fr.
  exact (missing_report_counts_as_failure build fr cfg "tests/test_login.py::test_ok" []
           None sample_pages sync_library [] (λ name, eq_refl)).
Defined.

(** A passed test with [--tracing retain-on-failure]: one start, and one
    stop that discards the trace. *)
Lemma tracing_start_stop_pairing_witness :
  let build := base_build_artifact_test_folder sample_slugify in
  let cfg := sample_config "retain-on-failure" "off" "off" false in
  let t := {| opened_pages := sample_pages; call_report := Some {| failed := false |} |} in
  let log := (context sample_slugify build ∅ cfg (sample_request None) t sync_library []).2 in
  tracing_starts log = ["tests-test-login-py--test-ok"] ∧
  ∃ p, tracing_stops log = [p] ∧
    (is_Some p ↔ "retain-on-failure" = "on" ∨
                 (false = true ∧ "retain-on-failure" = "retain-on-failure")).
Proof.
  intros build cfg t log.
  refine (proj1 (tracing_start_stop_pairing sample_slugify build ∅ cfg (sample_request None)
                   t sync_library [] sync_library_setup_returns) _).
  by right.
Defined.

(** Everything on, screenshots failing: the context is still closed once,
    between the screenshots and the videos. *)
Lemma context_closed_once_in_order_witness :
  let build := base_build_artifact_test_folder sample_slugify in
  let cfg := sample_config "on" "on" "on" false in
  let req := sample_request (Some {| failed := false |}) in
  let fr := {| tracing_option := "on"; capture_trace := true |} in
  ∃ before after,
    (context_teardown build fr cfg req sample_pages failing_library []).2 =
      before ++ context_close :: after ∧
    Forall is_trace_or_screenshot before ∧
    Forall is_video_call after.
Proof.
  intros build cfg req fr.
  exact (context_closed_once_in_order build fr cfg req sample_pages failing_library []
           failing_library_stop_returns failing_library_screenshot_raises_Error).
Defined.

(** * Further properties of the fixtures *)

(** ** Logs of sequenced code *)

Lemma bind_log {A B} (m : M A) (f : A → M B) lib h :
  ((m ≫= f) lib h).2 =
  (m lib h).2 ++
  match (m lib h).1 with
  | Ok a => (f a lib (h ++ (m lib h).2)).2
  | Raise _ => []
  end.
Proof.
  rewrite run_bind. destruct (m lib h) as [[a|e] l1]; simpl.
  - by destruct (f a lib (h ++ l1)).
  - by rewrite app_nil_r.
Qed.

Lemma omap_prefix {A B} (f : A → option B) (l1 l2 : list A) :
  l1 `prefix_of` l2 → omap f l1 `prefix_of` omap f l2.
Proof. intros [k ->]. rewrite omap_app. by eexists. Qed.

Lemma screenshot_pages_app l1 l2 :
  screenshot_pages (l1 ++ l2) = screenshot_pages l1 ++ screenshot_pages l2.
Proof. apply omap_app. Qed.

Lemma closes_app l1 l2 : closes (l1 ++ l2) = (closes l1 + closes l2)%nat.
Proof. unfold closes. by rewrite omap_app, length_app. Qed.

Section TeardownLogs.

Variable build : Config → FixtureRequest → string → string.

(** One protected screenshot makes its call, raising or not. *)
Lemma try_call_log c lib h : (try_except_Error (call c) lib h).2 = [c].
Proof.
  unfold try_except_Error, call. destruct (respond lib h c) as [e|]; [|done].
  by destruct (isinstance_Error e).
Qed.

Lemma screenshot_loop_prefix cfg req ixs lib h :
  (screenshot_loop build cfg req ixs lib h).2
    `prefix_of` map (screenshot_call build cfg req) ixs.
Proof.
  revert h. induction ixs as [|[i pg] ixs IH]; intros h; [done|].
  unfold screenshot_loop in *. simpl for_each. rewrite bind_log, try_call_log.
  simpl. apply prefix_cons.
  destruct (try_except_Error _ lib h).1; [apply IH | apply prefix_nil].
Qed.

Lemma take_screenshots_prefix cfg req pages lib h :
  (take_screenshots build cfg req pages lib h).2
    `prefix_of` screenshot_calls build cfg req pages.
Proof.
  unfold take_screenshots, screenshot_calls.
  destruct (_ || _); [apply screenshot_loop_prefix | done].
Qed.

(** What one page's video contributes to the log, whatever the library
    does: the evaluation of [video.path()], then at most the save, under
    the file name [video.path()] reported. *)
Lemma save_video_log cfg req v lib h :
  ∃ rest,
    (save_video build cfg req v lib h).2 = video_path v :: rest ∧
    (rest = [] ∨
     ∃ p, video_path_value lib h v = PathLike p ∧
          rest = [video_save_as v (build cfg req (basename p))]).
Proof.
  unfold save_video, try_except_Error. rewrite run_bind. unfold call_video_path.
  destruct (respond lib h (video_path v)) as [e|].
  { exists []. split; [by destruct (isinstance_Error e) | by left]. }
  destruct (video_path_value lib h v) as [p|] eqn:Hp; simpl.
  - rewrite run_bind. simpl. unfold call. rewrite app_nil_r.
    eexists. split; [|right; by exists p].
    destruct (respond lib _ (video_save_as _ _)) as [e|]; [|done].
    by destruct (isinstance_Error e).
  - exists []. by split; [|left].
Qed.

Lemma video_loop_log cfg req pages lib h :
  let log := (video_loop build cfg req pages lib h).2 in
  video_paths_asked log `prefix_of` videos_of pages ∧
  videos_saved log `sublist_of` videos_of pages ∧
  Forall (video_call_on build lib cfg req) log.
Proof.
  revert h. induction pages as [|pg pages IH]; intros h.
  { by repeat split. }
  unfold video_loop in *. simpl for_each. cbv zeta. rewrite bind_log.
  unfold videos_of. simpl omap.
  destruct (page_video pg) as [v|].
  - destruct (save_video_log cfg req v lib h) as (rest & Hlog & Hrest).
    fold (save_video build cfg req v). rewrite Hlog.
    set (tail := match (save_video build cfg req v lib h).1 with
                 | Ok a => _ | Raise _ => [] end).
    assert (video_paths_asked tail `prefix_of` omap page_video pages ∧
            videos_saved tail `sublist_of` omap page_video pages ∧
            Forall (video_call_on build lib cfg req) tail) as (T1 & T2 & T3).
    { subst tail. destruct (save_video build cfg req v lib h).1; [apply IH|].
      repeat split; [apply prefix_nil | apply sublist_nil_l | constructor]. }
    unfold video_paths_asked, videos_saved in *.
    destruct Hrest as [->|(p & Hp & ->)]; simpl.
    + repeat split; [by apply prefix_cons | by apply sublist_cons | by constructor].
    + repeat split; [by apply prefix_cons | by apply sublist_skip |].
      constructor; [done|]. constructor; [|done]. by exists h, p.
  - simpl. destruct (IH (h ++ [])) as (T1 & T2 & T3). by repeat split.
Qed.

End TeardownLogs.

Section TeardownShape.

Variable build : Config → FixtureRequest → string → string.

(** The log of any teardown, whatever the library does: the trace stop,
    an initial segment of the screenshots, at most one close, and then
    calls of the video stage. *)
Lemma teardown_parts fr cfg req pages lib h :
  ∃ l2 l3 l4,
    (context_teardown build fr cfg req pages lib h).2 =
      (stop_tracing build fr cfg req lib h).2 ++ l2 ++ l3 ++ l4 ∧
    l2 `prefix_of` screenshot_calls build cfg req pages ∧
    (l3 = [] ∧ l4 = [] ∨
     l3 = [context_close] ∧
     (l4 = [] ∨ ∃ h', l4 = (save_videos build cfg req pages lib h').2)).
Proof.
  rewrite context_teardown_stages, bind_log.
  destruct (stop_tracing build fr cfg req lib h).1.
  2: { exists [], [], []. split; [done|]. split; [apply prefix_nil | by left]. }
  rewrite bind_log.
  pose proof (take_screenshots_prefix build cfg req pages lib
                (h ++ (stop_tracing build fr cfg req lib h).2)) as Hpre.
  destruct (take_screenshots build cfg req pages lib _) as [[[]|e] l2]; simpl in *.
  2: { exists l2, [], []. split; [done|]. split; [done | by left]. }
  rewrite bind_log. unfold call at 1 2.
  destruct (respond lib _ context_close) as [e|]; simpl.
  - exists l2, [context_close], []. split; [done|]. split; [done|]. right. by split; [|left].
  - eexists l2, [context_close], _. split; [done|]. split; [done|].
    right. split; [done|]. right. by eexists.
Qed.

Lemma has_sep_basename p : has_sep (basename p) = false.
Proof.
  induction p as [|c rest IH]; [done|]. simpl.
  destruct (has_sep rest) eqn:Hrest; [done|].
  destruct (Ascii.eqb c "/") eqn:Hc; [done|]. simpl. by rewrite Hc.
Qed.

Lemma stop_tracing_observations fr cfg req lib h :
  let l1 := (stop_tracing build fr cfg req lib h).2 in
  screenshot_pages l1 = [] ∧ video_paths_asked l1 = [] ∧ videos_saved l1 = [] ∧
  closes l1 = 0 ∧ Forall (λ c, ∀ v path, c ≠ video_save_as v path) l1.
Proof.
  intros l1. subst l1. rewrite stop_tracing_calls.
  destruct (capture_trace fr); repeat split; by repeat constructor.
Qed.

Lemma screenshot_prefix_observations cfg req pages l2 :
  l2 `prefix_of` screenshot_calls build cfg req pages →
  screenshot_pages l2 `prefix_of` pages ∧ video_paths_asked l2 = [] ∧
  videos_saved l2 = [] ∧ closes l2 = 0 ∧
  Forall (λ c, ∀ v path, c ≠ video_save_as v path) l2.
Proof.
  intros Hpre.
  assert (Forall (λ c, ∃ ip, c = screenshot_call build cfg req ip) l2) as Hall.
  { destruct Hpre as [k Hk]. unfold screenshot_calls in Hk.
    destruct (_ || _); [|by destruct l2].
    assert (Forall (λ c, ∃ ip, c = screenshot_call build cfg req ip) (l2 ++ k)) as Happ.
    { rewrite <- Hk. apply Forall_forall. intros c (ip & -> & _)%list_elem_of_fmap.
      by exists ip. }
    by apply Forall_app in Happ as [? _]. }
  split.
  { etrans; [apply omap_prefix, Hpre|]. fold (screenshot_pages (screenshot_calls build cfg req pages)).
    rewrite screenshot_pages_screenshot_calls. destruct (_ || _); [done | apply prefix_nil]. }
  repeat split.
  - apply omap_none. eapply Forall_impl; [exact Hall|]. by intros c [ip ->].
  - apply omap_none. eapply Forall_impl; [exact Hall|]. by intros c [ip ->].
  - unfold closes. rewrite omap_none; [done|].
    eapply Forall_impl; [exact Hall|]. by intros c [ip ->].
  - eapply Forall_impl; [exact Hall|]. by intros c [ip ->].
Qed.

Lemma save_videos_observations cfg req pages lib h :
  let l4 := (save_videos build cfg req pages lib h).2 in
  screenshot_pages l4 = [] ∧ closes l4 = 0 ∧
  video_paths_asked l4 `prefix_of` videos_of pages ∧
  videos_saved l4 `sublist_of` videos_of pages ∧
  Forall (video_call_on build lib cfg req) l4.
Proof.
  intros l4.
  assert (Forall (video_stage_call build cfg req pages) l4) as Hall.
  { apply save_videos_emits. }
  split; [|split].
  - apply omap_none. eapply Forall_impl; [exact Hall|].
    by intros c (v & _ & [->|[name ->]]).
  - unfold closes. rewrite omap_none; [done|].
    eapply Forall_impl; [exact Hall|]. by intros c (v & _ & [->|[name ->]]).
  - subst l4. unfold save_videos. destruct (_ || _).
    + apply video_loop_log.
    + repeat split; [apply prefix_nil | apply sublist_nil_l | constructor].
Qed.

(** X1. Whatever the library does, the pages that get a screenshot are an
    initial segment of the pages opened, in order, and [context.close()] is
    called at most once. *)
Theorem screenshots_in_page_order fr cfg req pages lib h :
  let log := (context_teardown build fr cfg req pages lib h).2 in
  screenshot_pages log `prefix_of` pages ∧ (closes log ≤ 1)%nat.
Proof.
  intros log. subst log.
  destruct (teardown_parts fr cfg req pages lib h) as (l2 & l3 & l4 & -> & Hl2 & Hl34).
  destruct (stop_tracing_observations fr cfg req lib h) as (S1 & _ & _ & C1 & _).
  destruct (screenshot_prefix_observations cfg req pages l2 Hl2) as (S2 & _ & _ & C2 & _).
  assert (screenshot_pages (l3 ++ l4) = [] ∧ (closes (l3 ++ l4) ≤ 1)%nat) as [S3 C3].
  { destruct Hl34 as [[-> ->]|[-> [->|[h' ->]]]]; [split; [done | unfold closes; simpl; lia]..|].
    destruct (save_videos_observations cfg req pages lib h') as (S4 & C4 & _).
    split.
    - change (screenshot_pages (save_videos build cfg req pages lib h').2 = []).
      exact S4.
    - change (S (closes (save_videos build cfg req pages lib h').2) ≤ 1)%nat.
      rewrite C4. lia. }
  rewrite (screenshot_pages_app _ (l2 ++ _)), (screenshot_pages_app l2).
  rewrite (closes_app _ (l2 ++ _)), (closes_app l2).
  rewrite S1, S3, C1, C2, app_nil_r. split; [done | lia].
Qed.

(** X2. Whatever the library does, [video.path()] is evaluated on an
    initial segment of the videos of the opened pages, in page order, and
    the videos saved are a sub-sequence of them: no video is saved twice,
    and none that does not belong to a page of the test. *)
Theorem videos_in_page_order fr cfg req pages lib h :
  let log := (context_teardown build fr cfg req pages lib h).2 in
  video_paths_asked log `prefix_of` videos_of pages ∧
  videos_saved log `sublist_of` videos_of pages.
Proof.
  intros log. subst log.
  destruct (teardown_parts fr cfg req pages lib h) as (l2 & l3 & l4 & -> & Hl2 & Hl34).
  destruct (stop_tracing_observations fr cfg req lib h) as (_ & A1 & V1 & _).
  destruct (screenshot_prefix_observations cfg req pages l2 Hl2) as (_ & A2 & V2 & _).
  unfold video_paths_asked, videos_saved in *.
  rewrite !omap_app, A1, A2, V1, V2. simpl.
  destruct Hl34 as [[-> ->]|[-> [->|[h' ->]]]]; simpl;
    try (split; [apply prefix_nil | apply sublist_nil_l]).
  destruct (save_videos_observations cfg req pages lib h') as (_ & _ & A4 & V4 & _).
  by split.
Qed.

(** *** Each save follows its [video.path()] *)

Lemma save_follows_path_app cfg req lib h0 l1 l2 :
  save_follows_path build lib cfg req h0 l1 →
  save_follows_path build lib cfg req (h0 ++ l1) l2 →
  save_follows_path build lib cfg req h0 (l1 ++ l2).
Proof.
  intros H1 H2 pre v path post Heq.
  apply app_eq_inv in Heq as [(k & -> & Hpost)|(k & -> & Hl2)].
  - destruct k as [|c k].
    + simpl in Hpost. destruct (H2 [] v path post) as (pre' & p & Hpre & _); [done|].
      by destruct pre'.
    + injection Hpost as <- ->. by apply (H1 pre v path k).
  - destruct (H2 k v path post Hl2) as (pre' & p & -> & Hp & ->).
    exists (l1 ++ pre'), p. by rewrite !(assoc_L (++)).
Qed.

Lemma save_follows_path_none cfg req lib h0 l :
  Forall (λ c, ∀ v path, c ≠ video_save_as v path) l →
  save_follows_path build lib cfg req h0 l.
Proof.
  intros Hall pre v path post ->. apply Forall_app in Hall as [_ Hall].
  apply Forall_cons in Hall as [Hsave _]. by destruct (Hsave v path).
Qed.

Lemma save_follows_path_save_video cfg req v lib h :
  save_follows_path build lib cfg req h (save_video build cfg req v lib h).2.
Proof.
  destruct (save_video_log build cfg req v lib h) as (rest & -> & [->|(p & Hp & ->)]).
  - apply save_follows_path_none. repeat constructor. done.
  - intros pre w path post Heq.
    destruct pre as [|c1 [|c2 pre]]; simplify_eq/=.
    + exists [], p. by rewrite app_nil_r.
    + by destruct pre.
Qed.

Lemma save_follows_path_video_loop cfg req pages lib h :
  save_follows_path build lib cfg req h (video_loop build cfg req pages lib h).2.
Proof.
  revert h. induction pages as [|pg pages IH]; intros h.
  { by apply save_follows_path_none. }
  unfold video_loop in *. simpl for_each. rewrite bind_log.
  apply save_follows_path_app.
  - destruct (page_video pg) as [v|].
    + apply save_follows_path_save_video.
    + by apply save_follows_path_none.
  - match goal with |- context [match ?r with Ok _ => _ | Raise _ => _ end] =>
      destruct r end; [apply IH | by apply save_follows_path_none].
Qed.

Lemma save_follows_path_teardown fr cfg req pages lib h :
  save_follows_path build lib cfg req h (context_teardown build fr cfg req pages lib h).2.
Proof.
  rewrite context_teardown_stages, bind_log. apply save_follows_path_app.
  { apply save_follows_path_none.
    by destruct (stop_tracing_observations fr cfg req lib h) as (_ & _ & _ & _ & ?). }
  destruct (stop_tracing build fr cfg req lib h).1;
    [|by apply save_follows_path_none].
  rewrite bind_log. apply save_follows_path_app.
  { apply save_follows_path_none.
    eapply Forall_impl; [apply take_screenshots_emits|]. by intros c (ip & _ & ->). }
  destruct (take_screenshots build cfg req pages lib _).1;
    [|by apply save_follows_path_none].
  rewrite bind_log. apply save_follows_path_app.
  { apply save_follows_path_none. unfold call.
    destruct (respond lib _ context_close); by repeat constructor. }
  destruct (call context_close lib _).1; [|by apply save_follows_path_none].
  unfold save_videos. destruct (_ || _).
  - apply save_follows_path_video_loop.
  - by apply save_follows_path_none.
Qed.

(** X3. Whatever the library does, every [video.save_as] call of a teardown
    comes right after the evaluation of [video.path()] on the same video,
    and saves under the file name which that evaluation returned, at that
    point of the run, moved by the path builder; that name contains no
    path separator. *)
Theorem saved_video_keeps_file_name fr cfg req pages lib h pre v path post :
  (context_teardown build fr cfg req pages lib h).2 =
    pre ++ video_save_as v path :: post →
  ∃ pre' p,
    pre = pre' ++ [video_path v] ∧
    video_path_value lib (h ++ pre') v = PathLike p ∧
    path = build cfg req (basename p) ∧
    has_sep (basename p) = false.
Proof.
  intros Hlog.
  destruct (save_follows_path_teardown fr cfg req pages lib h pre v path post Hlog)
    as (pre' & p & Hpre & Hp & Hpath).
  exists pre', p. repeat split; [done..|]. apply has_sep_basename.
Qed.

(** X4. [tracing.stop] is not protected: when a trace is being captured
    and [tracing.stop] raises, the teardown ends with that exception right
    there; no screenshot is taken, no video is saved and the context is
    not closed. *)
Theorem tracing_stop_failure_aborts fr cfg req pages lib h e :
  capture_trace fr = true →
  (∀ p, respond lib h (tracing_stop p) = Some e) →
  ∃ p, context_teardown build fr cfg req pages lib h = (Raise e, [tracing_stop p]).
Proof.
  intros Hcap Hstop. rewrite context_teardown_stages, run_bind.
  unfold stop_tracing, call. rewrite Hcap.
  destruct (_ || _); rewrite Hstop; by eexists.
Qed.

(** X5. [context.close()] is not protected either: when it raises, on a
    library whose trace stop returns and whose screenshots raise nothing
    but [Error], the teardown ends with that exception and the video stage
    is skipped altogether. *)
Theorem close_failure_skips_videos fr cfg req pages lib h e :
  stop_returns lib →
  screenshot_raises_Error lib →
  (∀ h', respond lib h' context_close = Some e) →
  let run := context_teardown build fr cfg req pages lib h in
  run.1 = Raise e ∧ video_paths_asked run.2 = [] ∧ videos_saved run.2 = [] ∧
  closes run.2 = 1.
Proof.
  intros Hstop Hshot Hclose run. subst run.
  rewrite teardown_run by done. rewrite Hclose. cbn [fst snd].
  destruct (stop_tracing_observations fr cfg req lib h) as (_ & A1 & V1 & C1 & _).
  destruct (screenshot_prefix_observations cfg req pages
              (screenshot_calls build cfg req pages)) as (_ & A2 & V2 & C2 & _); [done|].
  split; [done|]. rewrite !closes_app, C1, C2.
  unfold video_paths_asked, videos_saved in *. by rewrite !omap_app, A1, A2, V1, V2.
Qed.

(** X6. Only [Error] is caught around a screenshot: when screenshots are
    to be taken and the first one raises an exception that is not an
    instance of [Error], the teardown ends with it after that one call and
    the context is never closed. *)
Theorem screenshot_other_exception_aborts fr cfg req pg pages lib h e :
  stop_returns lib →
  opt_screenshot cfg = "on" →
  isinstance_Error e = false →
  (∀ h' t p f, respond lib h' (page_screenshot pg t p f) = Some e) →
  let run := context_teardown build fr cfg req (pg :: pages) lib h in
  run.1 = Raise e ∧ screenshot_pages run.2 = [pg] ∧ closes run.2 = 0.
Proof.
  intros Hstop Hopt He Hshot run. subst run.
  rewrite context_teardown_stages.
  erewrite run_bind_Ok; last by apply stop_tracing_run.
  destruct (stop_tracing_observations fr cfg req lib h) as (S1 & _ & _ & C1 & _).
  set (l1 := (stop_tracing build fr cfg req lib h).2) in *.
  assert (take_screenshots build cfg req (pg :: pages) lib (h ++ l1) =
          (Raise e, [screenshot_call build cfg req (0, pg)])) as Htake.
  { unfold take_screenshots. rewrite Hopt.
    change (String.eqb "on" "on") with true. cbn [orb].
    unfold screenshot_loop, enumerate. simpl for_each.
    rewrite run_bind. unfold try_except_Error, call. by rewrite Hshot, He. }
  erewrite run_bind_Raise by exact Htake. cbn [fst snd].
  rewrite screenshot_pages_app, closes_app, S1, C1. by repeat split.
Qed.

(** X7. A test that opened no page: on a library whose trace stop
    returns, the teardown stops the trace, closes the context and does
    nothing else, whatever the options; it ends as [context.close()]
    does. *)
Theorem no_pages_no_captures fr cfg req lib h :
  stop_returns lib →
  let l1 := (stop_tracing build fr cfg req lib h).2 in
  context_teardown build fr cfg req [] lib h =
  (match respond lib (h ++ l1) context_close with
   | Some e => Raise e
   | None => Ok ()
   end, l1 ++ [context_close]).
Proof.
  intros Hstop l1. subst l1.
  rewrite context_teardown_stages.
  erewrite run_bind_Ok; last by apply stop_tracing_run.
  assert (∀ h', take_screenshots build cfg req [] lib h' = (Ok (), [])) as Htake.
  { intros h'. unfold take_screenshots. by destruct (_ || _). }
  assert (∀ h', save_videos build cfg req [] lib h' = (Ok (), [])) as Hsave.
  { intros h'. unfold save_videos. by destruct (_ || _). }
  erewrite run_bind_Ok by apply Htake.
  rewrite run_call_bind, Hsave, !app_nil_r. simpl.
  by destruct (respond lib _ context_close).
Qed.

(** *** Screenshot file names *)

Lemma screenshot_paths_calls cfg req ixs :
  screenshot_paths (map (screenshot_call build cfg req) ixs) =
  screenshot_path build cfg req <$> ixs.*1.
Proof.
  induction ixs as [|[i pg] ixs IH]; [done|].
  change (screenshot_path build cfg req i ::
            screenshot_paths (map (screenshot_call build cfg req) ixs) =
          screenshot_path build cfg req i :: (screenshot_path build cfg req <$> ixs.*1)).
  by rewrite IH.
Qed.

Lemma enumerate_from_fst {A} k (xs : list A) :
  (enumerate_from k xs).*1 = seq k (length xs).
Proof. revert k. induction xs as [|x xs IH]; intros k; simpl; by rewrite ?IH. Qed.

Lemma screenshot_paths_no_pages l :
  screenshot_pages l = [] → screenshot_paths l = [].
Proof.
  induction l as [|c l IH]; [done|].
  unfold screenshot_pages, screenshot_paths in *. simpl. by destruct c.
Qed.

(** The screenshot paths of a teardown that reaches the close. *)
Lemma teardown_screenshot_paths fr cfg req pages lib h :
  stop_returns lib → screenshot_raises_Error lib →
  screenshot_paths (context_teardown build fr cfg req pages lib h).2 =
  screenshot_paths (screenshot_calls build cfg req pages).
Proof.
  intros Hstop Hshot.
  destruct (teardown_log_close build fr cfg req pages lib h Hstop Hshot)
    as (after & -> & Hafter).
  destruct (stop_tracing_observations fr cfg req lib h) as (S1 & _).
  apply screenshot_paths_no_pages in S1.
  assert (screenshot_paths (context_close :: after) = []) as S3.
  { apply omap_none. constructor; [done|].
    eapply Forall_impl; [exact Hafter|]. by intros c (v & _ & [->|[name ->]]). }
  unfold screenshot_paths in *. by rewrite !omap_app, S1, S3, app_nil_r.
Qed.

(** X8. Screenshot file names: when screenshots are taken, the page opened
    in position [i] (counting from 0) is written to
    [test-failed-<i+1>.png] after a failed test and to
    [test-finished-<i+1>.png] after a passed one, in the test's folder. *)
Theorem screenshot_file_names fr cfg req pages b lib h i pg :
  rep_call (node req) = Some {| failed := b |} →
  stop_returns lib →
  screenshot_raises_Error lib →
  opt_screenshot cfg = "on" ∨ (b = true ∧ opt_screenshot cfg = "only-on-failure") →
  pages !! i = Some pg →
  screenshot_paths (context_teardown build fr cfg req pages lib h).2 !! i =
  Some (build cfg req
          ("test-" +:+ (if b then "failed" else "finished") +:+ "-" +:+ str (i + 1)
           +:+ ".png")).
Proof.
  intros Hrep Hstop Hshot Hkeep Hi.
  rewrite teardown_screenshot_paths by done.
  unfold screenshot_calls, failed_flag. rewrite Hrep. cbn [failed].
  apply decision_spec in Hkeep. rewrite Hkeep.
  rewrite screenshot_paths_calls. unfold enumerate. rewrite enumerate_from_fst.
  rewrite list_lookup_fmap, lookup_seq_lt by (by eapply lookup_lt_Some).
  simpl. unfold screenshot_path, failed_flag. by rewrite Hrep.
Qed.

(** *** No two screenshots share a path *)

Lemma str_inj n m : str n = str m → n = m.
Proof.
  unfold str. intros Heq.
  assert (Some (Nat.to_uint n) = Some (Nat.to_uint m)) as [= Hu].
  { by rewrite <- !NilEmpty.usu, Heq. }
  by rewrite <- (Unsigned.of_to n), <- (Unsigned.of_to m), Hu.
Qed.

Lemma length_append (s t : string) :
  String.length (s +:+ t) = (String.length s + String.length t)%nat.
Proof. induction s as [|c s IH]; simpl; by rewrite ?IH. Qed.

Lemma append_inv_tail (s1 s2 t : string) : s1 +:+ t = s2 +:+ t → s1 = s2.
Proof.
  revert s2. induction s1 as [|c1 s1 IH]; intros [|c2 s2] Heq; [done| | |].
  - apply (f_equal String.length) in Heq.
    rewrite !length_append in Heq. simpl in Heq. lia.
  - apply (f_equal String.length) in Heq.
    rewrite !length_append in Heq. simpl in Heq. lia.
  - simpl in Heq. injection Heq as -> Heq. by rewrite (IH _ Heq).
Qed.

Lemma screenshot_path_inj cfg req i j :
  (∀ n1 n2, build cfg req n1 = build cfg req n2 → n1 = n2) →
  screenshot_path build cfg req i = screenshot_path build cfg req j → i = j.
Proof.
  intros Hinj Heq. unfold screenshot_path in Heq. apply Hinj in Heq.
  do 3 apply String.app_inj in Heq.
  apply append_inv_tail, str_inj in Heq. lia.
Qed.

(** X9. Provided the path builder sends different names to different
    paths, no two screenshot calls of a teardown are given the same path,
    whatever the library does: one page's screenshot never overwrites
    another's. *)
Theorem screenshot_paths_distinct fr cfg req pages lib h :
  (∀ n1 n2, build cfg req n1 = build cfg req n2 → n1 = n2) →
  NoDup (screenshot_paths (context_teardown build fr cfg req pages lib h).2).
Proof.
  intros Hinj.
  destruct (teardown_parts fr cfg req pages lib h) as (l2 & l3 & l4 & -> & Hl2 & Hl34).
  destruct (stop_tracing_observations fr cfg req lib h) as (S1 & _).
  apply screenshot_paths_no_pages in S1.
  assert (screenshot_paths (l3 ++ l4) = []) as S3.
  { apply screenshot_paths_no_pages. rewrite screenshot_pages_app.
    destruct Hl34 as [[-> ->]|[-> [->|[h' ->]]]]; [done..|].
    by destruct (save_videos_observations cfg req pages lib h') as (-> & _). }
  unfold screenshot_paths in *.
  rewrite omap_app, S1, omap_app, S3, app_nil_r. simpl.
  destruct Hl2 as [k Hk].
  assert (NoDup (screenshot_paths (l2 ++ k))) as Hnd.
  { rewrite <- Hk. unfold screenshot_calls. destruct (_ || _); [|constructor].
    rewrite screenshot_paths_calls. unfold enumerate. rewrite enumerate_from_fst.
    apply NoDup_fmap_2_strong; [|apply NoDup_seq].
    intros i j _ _. by apply screenshot_path_inj. }
  unfold screenshot_paths in Hnd. rewrite omap_app in Hnd.
  by apply NoDup_app in Hnd as [? _].
Qed.

End TeardownShape.

(** ** Set-up and whole runs *)

Section Runs.

Variable slugify : string → string.
Variable build : Config → FixtureRequest → string → string.

Lemma context_setup_log bca cfg req lib h :
  ∃ rest,
    (context_setup slugify bca cfg req lib h).2 =
      new_context (updated_context_args bca req) :: rest ∧
    context_kwargs rest = [] ∧ closes rest = 0 ∧ tracing_stops rest = [].
Proof.
  unfold context_setup. rewrite run_call_bind.
  fold (updated_context_args bca req).
  destruct (respond lib h _); [by exists []|].
  cbn [snd]. eexists. split; [done|].
  rewrite bind_log. unfold call.
  destruct (str_in _ _); [|done].
  by destruct (respond lib _ _).
Qed.

Lemma teardown_no_new_context fr cfg req pages lib h :
  context_kwargs (context_teardown build fr cfg req pages lib h).2 = [].
Proof.
  apply omap_none. eapply Forall_impl; [apply context_teardown_emits|].
  intros c [->|[->|[(ip & _ & ->)|[->|(v & _ & [->|[name ->]])]]]]; done.
Qed.

(** X10. One context per test, created with the marker's arguments: in
    every run, whatever the library does, [browser.new_context] is called
    exactly once, with the fixture's [browser_context_args] overridden key
    by key by the keyword arguments of the closest [browser_context_args]
    marker that applies to the test: one of its own, else one inherited
    from its class, module or package, if there is any. *)
Theorem context_created_with_marker_args bca cfg req t lib h :
  ∃ kw,
    context_kwargs (context slugify build bca cfg req t lib h).2 = [kw] ∧
    ∀ k, kw !! k =
         match head (iter_markers "browser_context_args" (node req)) with
         | Some m =>
             match mark_kwargs m !! k with
             | Some v => Some v
             | None => bca !! k
             end
         | None => bca !! k
         end.
Proof.
  exists (updated_context_args bca req). split.
  - unfold context. rewrite bind_log.
    destruct (context_setup_log bca cfg req lib h) as (rest & -> & Hrest & _).
    assert (∀ l, context_kwargs ((new_context (updated_context_args bca req) :: rest) ++ l)
                 = updated_context_args bca req :: context_kwargs l) as ->.
    { intros l. unfold context_kwargs in *.
      change (new_context (updated_context_args bca req) :: rest)
        with ([new_context (updated_context_args bca req)] ++ rest).
      by rewrite !omap_app, Hrest. }
    destruct (context_setup slugify bca cfg req lib h).1; [|done].
    by rewrite teardown_no_new_context.
  - intros k. unfold updated_context_args.
    destruct (head _) as [m|].
    + destruct (mark_kwargs m !! k) as [v|] eqn:Hk.
      * by apply lookup_union_Some_l.
      * by rewrite lookup_union_r.
    + by rewrite (left_id_L ∅ (∪)).
Qed.

(** X12. [tracing.start] is not protected: when tracing is to be captured
    and [tracing.start] raises after the context was created, the fixture
    ends with that exception; the teardown half never runs, so the context
    just created is not closed. *)
Theorem tracing_start_failure_leaves_context_open bca cfg req t lib h e :
  (∀ h' kw, respond lib h' (new_context kw) = None) →
  (∀ h' title a b c, respond lib h' (tracing_start title a b c) = Some e) →
  opt_tracing cfg = "on" ∨ opt_tracing cfg = "retain-on-failure" →
  context slugify build bca cfg req t lib h =
  (Raise e, [new_context (updated_context_args bca req);
             tracing_start (slugify (nodeid (node req))) true true true]).
Proof.
  intros Hnew Hstart Hopt. unfold context. apply run_bind_Raise.
  unfold context_setup. fold (updated_context_args bca req).
  rewrite run_call_bind, Hnew, run_bind.
  assert (str_in (opt_tracing cfg) ["on"; "retain-on-failure"] = true) as ->.
  { unfold str_in. simpl. destruct Hopt as [->| ->]; [done|]. by rewrite orb_true_r. }
  unfold call. by rewrite Hstart.
Qed.

Lemma capture_off_run bca cfg req t lib h :
  opt_tracing cfg = "off" → opt_video cfg = "off" → opt_screenshot cfg = "off" →
  (∀ h' kw, respond lib h' (new_context kw) = None) →
  (context slugify build bca cfg req t lib h).2 =
  [new_context (updated_context_args bca req); context_close].
Proof.
  intros Htr Hvid Hshot Hnew. unfold context.
  assert (context_setup slugify bca cfg req lib h =
          (Ok {| tracing_option := "off"; capture_trace := false |},
           [new_context (updated_context_args bca req)])) as Hsetup.
  { unfold context_setup. fold (updated_context_args bca req).
    by rewrite run_call_bind, Hnew, Htr. }
  erewrite run_bind_Ok by exact Hsetup. cbn [snd].
  rewrite context_teardown_stages.
  assert (∀ r pages h', take_screenshots build cfg r pages lib h' = (Ok (), [])) as Htake.
  { intros r pages h'. unfold take_screenshots. rewrite Hshot.
    by destruct (failed_flag r). }
  assert (∀ r pages h', save_videos build cfg r pages lib h' = (Ok (), [])) as Hsave.
  { intros r pages h'. unfold save_videos. rewrite Hvid.
    by destruct (failed_flag r). }
  rewrite run_bind. unfold stop_tracing at 1. cbn [capture_trace]. simpl.
  erewrite run_bind_Ok by apply Htake.
  rewrite run_call_bind, Hsave. by destruct (respond lib _ context_close).
Qed.

(** X13. With the three capture options ["off"], a run of the fixture
    creates the context and closes it and calls nothing else, for every
    test outcome, whatever pages the test opened. *)
Theorem all_capture_off bca cfg req t lib h :
  opt_tracing cfg = "off" → opt_video cfg = "off" → opt_screenshot cfg = "off" →
  (∀ h' kw, respond lib h' (new_context kw) = None) →
  (context slugify build bca cfg req t lib h).2 =
  [new_context (updated_context_args bca req); context_close].
Proof. apply capture_off_run. Qed.

(** X14. Run without any of the plugin's flags, the fixture captures
    nothing: with the defaults that [pytest_addoption] registers on a
    parser that has no ["playwright"] group yet, a run only creates the
    context and closes it. *)
Theorem default_options_capture_nothing (parser : Parser) bca req t lib h :
  parser !! "playwright" = None →
  (∀ h' kw, respond lib h' (new_context kw) = None) →
  ∃ cfg,
    default_config (playwright_options (pytest_addoption parser)) = Some cfg ∧
    (context slugify build bca cfg req t lib h).2 =
    [new_context (updated_context_args bca req); context_close].
Proof.
  intros Hfresh Hnew. eexists. split.
  - unfold playwright_options, pytest_addoption. cbv zeta.
    rewrite !lookup_addoption, lookup_getgroup, Hfresh. reflexivity.
  - by apply capture_off_run.
Qed.

End Runs.

(** ** Option groups *)

(** X15. [pytest_addoption] leaves every other option group of the parser
    as it was, and keeps the description of a ["playwright"] group that
    already exists; a group it has to create is described as
    ["Playwright"]. *)
Theorem pytest_addoption_keeps_other_groups (parser : Parser) :
  (∀ name, name ≠ "playwright" → pytest_addoption parser !! name = parser !! name) ∧
  description <$> pytest_addoption parser !! "playwright" =
    Some (from_option description "Playwright" (parser !! "playwright")).
Proof.
  split.
  - intros name Hname. unfold pytest_addoption, addoption. cbv zeta.
    rewrite !lookup_alter_ne by done. unfold getgroup.
    destruct (parser !! "playwright"); [done|]. by rewrite lookup_insert_ne.
  - unfold pytest_addoption. cbv zeta.
    rewrite !lookup_addoption, lookup_getgroup.
    by destruct (parser !! "playwright").
Qed.

(** ** Session fixtures *)

Lemma srun_bind {A B} (m : SM A) (f : A → SM B) lib h :
  (m ≫= f) lib h =
  match m lib h with
  | (Ok a, l1) => match f a lib (h ++ l1) with (r, l2) => (r, l1 ++ l2) end
  | (Raise e, l1) => (Raise e, l1)
  end.
Proof. reflexivity. Qed.

(** X16. [launch_browser] merges its arguments over the configured launch
    arguments: each keyword given at the call wins, every other key keeps
    its configured value, and exactly one [browser_type.launch] is made. *)
Theorem launch_options_merge bargs kwargs lib h :
  ∃ o,
    launches (launch_browser bargs kwargs lib h).2 = [o] ∧
    ∀ k, o !! k = match kwargs !! k with
                  | Some v => Some v
                  | None => bargs !! k
                  end.
Proof.
  exists (kwargs ∪ bargs). split.
  - unfold launch_browser, scall. by destruct (lib h _).
  - intros k. destruct (kwargs !! k) as [v|] eqn:Hk.
    + by apply lookup_union_Some_l.
    + by rewrite lookup_union_r.
Qed.

(** X17. The [browser] fixture launches the browser with exactly the
    configured launch arguments, and its end-of-session clean-up is not
    protected: when [browser.close()] raises, the fixture ends with that
    exception and the artifacts folder is not cleaned up. *)
Theorem browser_close_failure_skips_cleanup bargs during lib h e :
  let opened := browser_type_launch bargs :: during in
  lib h (browser_type_launch bargs) = None →
  lib (h ++ opened) browser_close = Some e →
  browser bargs during lib h = (Raise e, opened ++ [browser_close]).
Proof.
  intros opened Hlaunch Hclose. subst opened. unfold browser, launch_browser.
  rewrite (left_id_L ∅ (∪)), srun_bind. unfold scall at 1. rewrite Hlaunch.
  rewrite srun_bind. unfold yield_ at 1. rewrite srun_bind. unfold scall.
  rewrite <- !(assoc_L (++)). simpl. by rewrite Hclose.
Qed.

(** When both calls return, the browser is closed and then the folder is
    cleaned up. *)
Lemma browser_lifecycle bargs during lib h :
  let opened := browser_type_launch bargs :: during in
  lib h (browser_type_launch bargs) = None →
  lib (h ++ opened) browser_close = None →
  (browser bargs during lib h).2 = opened ++ [browser_close; artifacts_folder_cleanup].
Proof.
  intros opened Hlaunch Hclose. subst opened. unfold browser, launch_browser.
  rewrite (left_id_L ∅ (∪)), srun_bind. unfold scall at 1. rewrite Hlaunch.
  rewrite srun_bind. unfold yield_ at 1. rewrite srun_bind. unfold scall.
  rewrite <- !(assoc_L (++)). simpl. rewrite Hclose. simpl.
  rewrite <- !(assoc_L (++)). simpl.
  by destruct (lib _ artifacts_folder_cleanup).
Qed.

(** ** The further properties at concrete inputs *)

(** A library whose [video.path()] answers differently as the run goes
    on: before the context is closed it names [old.webm], afterwards
    [new.webm]. *)
Lemma saved_video_keeps_file_name_witness :
  let lib := {| respond := λ _ _, None;
                video_path_value := λ h _,
                  match h with
                  | [] => PathLike "/tmp/videos/old.webm"
                  | _ => PathLike "/tmp/videos/new.webm"
                  end |} in
  let build := base_build_artifact_test_folder sample_slugify in
  let cfg := sample_config "off" "on" "off" false in
  let req := sample_request (Some {| failed := false |}) in
  ∃ pre' p,
    [context_close; video_path {| video_id := 1 |}] = pre' ++ [video_path {| video_id := 1 |}] ∧
    video_path_value lib ([] ++ pre') {| video_id := 1 |} = PathLike p ∧
    "test-results/tests-test-login-py--test-ok/new.webm" = build cfg req (basename p) ∧
    has_sep (basename p) = false.
Proof.
  intros lib build cfg req.
  exact (saved_video_keeps_file_name build
           {| tracing_option := "off"; capture_trace := false |} cfg req sample_pages
           lib [] [context_close; video_path {| video_id := 1 |}] {| video_id := 1 |}
           "test-results/tests-test-login-py--test-ok/new.webm" [] eq_refl).
Defined.

(** A trace that cannot be stopped: the teardown ends there. *)
Lemma tracing_stop_failure_aborts_witness :
  let lib := raising_library (λ c,
    match c with tracing_stop _ => Some (Error "Tracing was not started") | _ => None end) in
  ∃ p, context_teardown (base_build_artifact_test_folder sample_slugify)
         {| tracing_option := "on"; capture_trace := true |}
         (sample_config "on" "on" "on" false)
         (sample_request (Some {| failed := false |})) sample_pages lib [] =
       (Raise (Error "Tracing was not started"), [tracing_stop p]).
Proof.
  intros lib.
  exact (tracing_stop_failure_aborts (base_build_artifact_test_folder sample_slugify)
           {| tracing_option := "on"; capture_trace := true |}
           (sample_config "on" "on" "on" false)
           (sample_request (Some {| failed := false |})) sample_pages lib []
           (Error "Tracing was not started") eq_refl (λ p, eq_refl)).
Defined.

(** A context that cannot be closed: no video is looked at. *)
Lemma close_failure_skips_videos_witness :
  let lib := raising_library (λ c,
    match c with context_close => Some (Error "Target closed") | _ => None end) in
  let run := context_teardown (base_build_artifact_test_folder sample_slugify)
               {| tracing_option := "off"; capture_trace := false |}
               (sample_config "off" "on" "on" false)
               (sample_request (Some {| failed := false |})) sample_pages lib [] in
  run.1 = Raise (Error "Target closed") ∧ video_paths_asked run.2 = [] ∧
  videos_saved run.2 = [] ∧ closes run.2 = 1.
Proof.
  intros lib.
  refine (close_failure_skips_videos (base_build_artifact_test_folder sample_slugify)
            {| tracing_option := "off"; capture_trace := false |}
            (sample_config "off" "on" "on" false)
            (sample_request (Some {| failed := false |}))
            sample_pages lib [] (Error "Target closed") _ _ (λ h', eq_refl)).
  - intros h p. reflexivity.
  - intros h pg t p f e He. discriminate He.
Defined.

(** A screenshot that fails with an exception of another class. *)
Lemma screenshot_other_exception_aborts_witness :
  let lib := raising_library (λ c,
    match c with
    | page_screenshot _ _ _ _ => Some (OtherException "OSError" "No space left on device")
    | _ => None
    end) in
  let pg := {| page_id := 1; page_video := None |} in
  let run := context_teardown (base_build_artifact_test_folder sample_slugify)
               {| tracing_option := "off"; capture_trace := false |}
               (sample_config "off" "off" "on" false)
               (sample_request (Some {| failed := false |})) [pg; pg] lib [] in
  run.1 = Raise (OtherException "OSError" "No space left on device") ∧
  screenshot_pages run.2 = [pg] ∧ closes run.2 = 0.
Proof.
  intros lib pg.
  refine (screenshot_other_exception_aborts (base_build_artifact_test_folder sample_slugify)
            {| tracing_option := "off"; capture_trace := false |}
            (sample_config "off" "off" "on" false)
            (sample_request (Some {| failed := false |})) pg [pg] lib []
            (OtherException "OSError" "No space left on device") _ eq_refl eq_refl
            (λ h' t p f, eq_refl)).
  intros h p. reflexivity.
Defined.

(** No page opened, everything on. *)
Lemma no_pages_no_captures_witness :
  context_teardown (base_build_artifact_test_folder sample_slugify)
    {| tracing_option := "on"; capture_trace := true |}
    (sample_config "on" "on" "on" true)
    (sample_request (Some {| failed := true |})) [] sync_library [] =
  (Ok (), [tracing_stop (Some "test-results/tests-test-login-py--test-ok/trace.zip");
           context_close]).
Proof.
  exact (no_pages_no_captures (base_build_artifact_test_folder sample_slugify)
           {| tracing_option := "on"; capture_trace := true |}
           (sample_config "on" "on" "on" true)
           (sample_request (Some {| failed := true |})) sync_library []
           (λ h p, eq_refl)).
Defined.

(** The second page of a passed test. *)
Lemma screenshot_file_names_witness :
  screenshot_paths
    (context_teardown (base_build_artifact_test_folder sample_slugify)
       {| tracing_option := "off"; capture_trace := false |}
       (sample_config "off" "off" "on" false)
       (sample_request (Some {| failed := false |})) sample_pages sync_library []).2 !! 1
  = Some "test-results/tests-test-login-py--test-ok/test-finished-2.png".
Proof.
  refine (screenshot_file_names (base_build_artifact_test_folder sample_slugify)
            {| tracing_option := "off"; capture_trace := false |}
            (sample_config "off" "off" "on" false)
            (sample_request (Some {| failed := false |}))
            sample_pages false sync_library [] 1
            {| page_id := 2; page_video := None |} eq_refl
            sync_library_stop_returns sync_library_screenshot_raises_Error _ eq_refl).
  by left.
Defined.

(** The builder modelled from the spec sends different names to different
    paths. *)
Lemma screenshot_paths_distinct_witness :
  NoDup (screenshot_paths
    (context_teardown (base_build_artifact_test_folder sample_slugify)
       {| tracing_option := "off"; capture_trace := false |}
       (sample_config "off" "off" "on" false)
       (sample_request (Some {| failed := false |})) sample_pages failing_library []).2).
Proof.
  apply screenshot_paths_distinct.
  intros n1 n2 Heq. unfold base_build_artifact_test_folder in Heq.
  by apply String.app_inj in Heq.
Defined.

(** Tracing that cannot be started. *)
Lemma tracing_start_failure_leaves_context_open_witness :
  let lib := raising_library (λ c,
    match c with tracing_start _ _ _ _ => Some (Error "Tracing has been already started")
    | _ => None end) in
  let t := {| opened_pages := sample_pages; call_report := None |} in
  context sample_slugify (base_build_artifact_test_folder sample_slugify) ∅
    (sample_config "on" "off" "off" false) (sample_request None) t lib [] =
  (Raise (Error "Tracing has been already started"),
   [new_context (updated_context_args ∅ (sample_request None));
    tracing_start "tests-test-login-py--test-ok" true true true]).
Proof.
  intros lib t.
  refine (tracing_start_failure_leaves_context_open sample_slugify _ ∅
            (sample_config "on" "off" "off" false) (sample_request None) t lib []
            (Error "Tracing has been already started")
            (λ h' kw, eq_refl) (λ h' title a b c, eq_refl) _).
  by left.
Defined.

(** Everything off after a failed test with two pages. *)
Lemma all_capture_off_witness :
  let t := {| opened_pages := sample_pages; call_report := Some {| failed := true |} |} in
  (context sample_slugify (base_build_artifact_test_folder sample_slugify) ∅
     (sample_config "off" "off" "off" true) (sample_request None) t failing_library []).2 =
  [new_context (updated_context_args ∅ (sample_request None)); context_close].
Proof.
  intros t.
  exact (all_capture_off sample_slugify (base_build_artifact_test_folder sample_slugify) ∅
           (sample_config "off" "off" "off" true) (sample_request None) t failing_library []
           eq_refl eq_refl eq_refl (λ h' kw, eq_refl)).
Defined.

(** The defaults registered on an empty parser. *)
Lemma default_options_capture_nothing_witness :
  let t := {| opened_pages := sample_pages; call_report := Some {| failed := true |} |} in
  ∃ cfg,
    default_config (playwright_options (pytest_addoption ∅)) = Some cfg ∧
    (context sample_slugify (base_build_artifact_test_folder sample_slugify) ∅ cfg
       (sample_request None) t sync_library []).2 =
    [new_context (updated_context_args ∅ (sample_request None)); context_close].
Proof.
  intros t.
  exact (default_options_capture_nothing sample_slugify
           (base_build_artifact_test_folder sample_slugify) ∅ ∅ (sample_request None) t
           sync_library [] (lookup_empty _) (λ h' kw, eq_refl)).
Defined.

(** A parser that already has a group of its own. *)
Lemma pytest_addoption_keeps_other_groups_witness :
  let general := {| description := "general"; options := [] |} in
  pytest_addoption {[ "general" := general ]} !! "general" = Some general.
Proof.
  intros general.
  rewrite (proj1 (pytest_addoption_keeps_other_groups {[ "general" := general ]})
             "general"); [apply lookup_singleton_eq | done].
Defined.

(** A browser that cannot be closed at the end of the session. *)
Lemma browser_close_failure_skips_cleanup_witness :
  let lib := λ (_ : list SessionCall) c,
    match c with browser_close => Some (Error "Browser has been closed") | _ => None end in
  browser {[ "headless" := VBool true ]} [] lib [] =
  (Raise (Error "Browser has been closed"),
   [browser_type_launch {[ "headless" := VBool true ]}; browser_close]).
Proof.
  intros lib.
  exact (browser_close_failure_skips_cleanup {[ "headless" := VBool true ]} [] lib []
           (Error "Browser has been closed") eq_refl eq_refl).
Defined.
